(** * JVC projector remote: the serial command protocol of [projector.py]

    A shallow embedding of [projector.py]: the button and input registries,
    the [Projector] base class ([send], [recv], [mode], [set_input],
    [press_button], [input], ...) and its two subclasses [HD250] and [RS40].

    Python [bytes] are lists of [byte]; dictionaries are [gmap]s and sets are
    [gset]s; a method is a function in a state-and-exception monad whose
    state is the projector object together with its serial port. *)

From Stdlib Require Import Strings.Byte ZArith Lia.
From stdpp Require Import gmap strings list fin_maps.

#[global] Instance byte_eq_dec : EqDecision byte := Byte.byte_eq_dec.
#[global] Instance byte_countable : Countable byte :=
  inj_countable Byte.to_N Byte.of_N Byte.of_to_N.

Definition bytes := list byte.

(** ** Python values and exceptions *)

(** The message of a [ProjectorCommunicationError], one constructor per
    [raise] site of [recv]; the arguments are the values formatted into the
    message with [%r]. *)
Inductive comm_msg :=
  | no_response
  | unknown_result_code (result_code : byte)
  | unknown_unit_id (response_unit_id : bytes)
  | command_mismatch (response_cmd cmd : bytes).

(** The values the methods return, the exceptions they raise, and the
    message of a [ValueError] (the argument is the value passed to [repr]). *)
Inductive value :=
  | VNone
  | VBool (b : bool)
  | VBytes (bs : bytes)
  | VStr (s : string)
  | VExc (e : exn)
with exn :=
  | ProjectorCommunicationError (m : comm_msg)
  | ValueError (m : value_msg)
  | KeyError (key : value)
with value_msg :=
  | invalid_internal_msgtype
  | unknown_power_state (state : value)
  | invalid_input (source : value)
  | unsupported_button (btn : value)
  | unknown_video_state (state : value).

(** [bool(v)], as used by [if v:] and [not v]. *)
Definition truthy (v : value) : bool :=
  match v with
  | VNone => false
  | VBool b => b
  | VBytes bs => negb (bool_decide (bs = []))
  | VStr s => negb (bool_decide (s = ""))
  | VExc _ => true
  end.

(** [a == b]; values of different types compare unequal, and an exception
    object is equal to no other value. *)
Definition py_eq (a b : value) : bool :=
  match a, b with
  | VNone, VNone => true
  | VBool x, VBool y => bool_decide (x = y)
  | VBytes x, VBytes y => bool_decide (x = y)
  | VStr x, VStr y => bool_decide (x = y)
  | _, _ => false
  end.

(** An index of a slice, clamped to [0 .. n] as Python does. *)
Definition clamp (i : Z) (n : nat) : nat :=
  if (i <? 0)%Z then Z.to_nat (Z.max (i + Z.of_nat n) 0)
  else Nat.min (Z.to_nat i) n.

(** [l[start:stop]]. *)
Definition slice {A} (l : list A) (start stop : Z) : list A :=
  let s := clamp start (length l) in
  let e := clamp stop (length l) in
  take (e - s) (drop s l).

(** A dict built by inserting the items in order: a later item replaces an
    earlier one with the same key (dict displays and dict comprehensions). *)
Definition dict_of_items `{Countable K} {V} (items : list (K * V)) : gmap K V :=
  foldl (fun d '(k, v) => <[k:=v]> d) ∅ items.

(** [d[key]] and [key in d] on a dict whose keys are bytes objects, for a
    key that may be any value: [None] and [True] equal no bytes key. *)
Definition bytes_dict_get {V} (d : gmap bytes V) (key : value) : option V :=
  match key with
  | VBytes bs => d !! bs
  | _ => None
  end.

(** ** [class Button] *)
Module Button.
Definition UP := "up".
Definition DOWN := "down".
Definition BACK := "back".
Definition ON := "on".
Definition STANDBY := "standby".
Definition INPUT := "input".
Definition BRIGHTNESS := "brightness".
Definition CONTRAST := "contrast".
Definition SHARPNESS := "sharpness".
Definition COLOR := "color".
Definition TINT := "tint".
Definition NR := "noise_reduction".
Definition HIDE := "hide".
Definition LENS_APERTURE := "lens_aperture".
Definition MENU := "menu".
Definition OK := "ok".
Definition LENS := "lens".
Definition RIGHT := "right".
Definition LEFT := "left".
Definition TEST := "test".
Definition STAGE := "stage".
Definition CINEMA2 := "cinema2".
Definition CINEMA1 := "cinema1".
Definition NATURAL := "natural".
Definition DYNAMIC := "dynamic".
Definition USER1 := "user1".
Definition USER2 := "user2".
Definition USER3 := "user3".
Definition INFO := "info".
Definition GAMMA := "gamma".
Definition COLOR_TEMP := "color_temp".
Definition ASPECT := "aspect".

Definition CODES : gmap string bytes :=
  dict_of_items
    [ (UP, [x30; x31]); (DOWN, [x30; x32]); (BACK, [x30; x33]);
      (ON, [x30; x35]); (STANDBY, [x30; x36]); (INPUT, [x30; x38]);
      (BRIGHTNESS, [x30; x39]); (CONTRAST, [x30; x41]);
      (SHARPNESS, [x31; x34]); (COLOR, [x31; x35]); (TINT, [x31; x36]);
      (NR, [x31; x38]); (HIDE, [x31; x44]); (LENS_APERTURE, [x32; x30]);
      (MENU, [x32; x45]); (OK, [x32; x46]); (LENS, [x33; x30]);
      (RIGHT, [x33; x34]); (LEFT, [x33; x36]); (TEST, [x35; x39]);
      (STAGE, [x36; x37]); (CINEMA2, [x36; x38]); (CINEMA1, [x36; x39]);
      (NATURAL, [x36; x41]); (DYNAMIC, [x36; x42]); (USER1, [x36; x44]);
      (USER2, [x36; x43]); (USER3, [x36; x45]); (INFO, [x37; x34]);
      (GAMMA, [x37; x35]); (COLOR_TEMP, [x37; x36]); (ASPECT, [x37; x37]) ].
End Button.

(** ** [class InputSource] *)
Module InputSource.
Definition S_VIDEO := "s-video".
Definition VIDEO := "video".
Definition COMPONENT := "component".
Definition COMPUTER := "computer".
Definition HDMI_1 := "hdmi1".
Definition HDMI_2 := "hdmi2".

Definition DISPLAY_NAMES : gmap string string :=
  dict_of_items
    [ (S_VIDEO, "S-Video"); (VIDEO, "Video"); (COMPONENT, "Component");
      (COMPUTER, "Computer"); (HDMI_1, "HDMI 1"); (HDMI_2, "HDMI 2") ].
End InputSource.

(** ** The subclasses of [Projector]

    [HD250] and [RS40] define the same four methods with the same bodies
    over their own class attributes, so a subclass is the record of its
    class attributes; [INPUT_SOURCES_items] lists the dict display in the
    order it is written. *)
Record ProjectorClass := {
  VALID_BUTTONS : gset string;
  INPUT_SOURCES_items : list (string * bytes);
  model : string
}.

Definition INPUT_SOURCES (cls : ProjectorClass) : gmap string bytes :=
  dict_of_items (INPUT_SOURCES_items cls).

(** [{code: name for name, code in INPUT_SOURCES.items()}] *)
Definition SOURCE_CODES (cls : ProjectorClass) : gmap bytes string :=
  dict_of_items ((fun '(name, code) => (code, name)) <$> INPUT_SOURCES_items cls).

(** [{name for name in INPUT_SOURCES.keys()}] *)
Definition VALID_SOURCES (cls : ProjectorClass) : gset string :=
  list_to_set ((INPUT_SOURCES_items cls).*1).

Definition HD250 : ProjectorClass := {|
  VALID_BUTTONS :=
    list_to_set
      [ Button.UP; Button.DOWN; Button.BACK; Button.ON; Button.STANDBY;
        Button.INPUT; Button.BRIGHTNESS; Button.CONTRAST; Button.SHARPNESS;
        Button.COLOR; Button.TINT; Button.NR; Button.HIDE;
        Button.LENS_APERTURE; Button.MENU; Button.OK; Button.LENS;
        Button.RIGHT; Button.LEFT; Button.TEST; Button.STAGE;
        Button.CINEMA2; Button.CINEMA1; Button.NATURAL; Button.DYNAMIC;
        Button.USER1; Button.USER2; Button.USER3; Button.INFO; Button.GAMMA;
        Button.COLOR_TEMP; Button.ASPECT ];
  INPUT_SOURCES_items :=
    [ (InputSource.S_VIDEO, [x30]); (InputSource.VIDEO, [x31]);
      (InputSource.COMPUTER, [x32]); (InputSource.HDMI_1, [x36]);
      (InputSource.HDMI_2, [x37]) ];
  model := "DLA-HD250"
|}.

Definition RS40 : ProjectorClass := {|
  VALID_BUTTONS :=
    list_to_set
      [ Button.UP; Button.DOWN; Button.BACK; Button.ON; Button.STANDBY;
        Button.HIDE; Button.LENS_APERTURE; Button.MENU; Button.OK;
        Button.LENS; Button.RIGHT; Button.LEFT; Button.STAGE;
        Button.CINEMA2; Button.CINEMA1; Button.NATURAL; Button.DYNAMIC;
        Button.USER1; Button.USER2; Button.USER3; Button.INFO; Button.GAMMA;
        Button.COLOR_TEMP; Button.ASPECT ];
  INPUT_SOURCES_items :=
    [ (InputSource.COMPONENT, [x32]); (InputSource.HDMI_1, [x36]);
      (InputSource.HDMI_2, [x37]) ];
  model := "DLA-RS40"
|}.

(** ** The serial port and the projector object *)

(** The port of the [serial] library, as the methods see it: [written] logs
    the argument of every [write] call, [pending] is the byte stream the
    device sends, and [reads] counts the [readline] calls. *)
Record Serial := {
  written : list bytes;
  pending : bytes;
  reads : nat
}.

(** A [Projector] instance: its class, [self.unit_id], [self.port], and what
    [print] has written so far. *)
Record Projector := {
  cls : ProjectorClass;
  unit_id : bytes;
  port : Serial;
  printed : list exn
}.

Definition with_port (self : Projector) (p : Serial) : Projector :=
  {| cls := cls self; unit_id := unit_id self; port := p;
     printed := printed self |}.

(** ** Methods: state passing with exceptions *)

Inductive outcome (A : Type) :=
  | Return (a : A)
  | Raise (e : exn).
Arguments Return {A} a.
Arguments Raise {A} e.

Definition M (A : Type) : Type := Projector -> outcome A * Projector.

#[global] Instance M_ret : MRet M := fun A a self => (Return a, self).
#[global] Instance M_bind : MBind M := fun A B k m self =>
  match m self with
  | (Return a, self') => k a self'
  | (Raise e, self') => (Raise e, self')
  end.

Definition raise {A} (e : exn) : M A := fun self => (Raise e, self).

Definition get_self : M Projector := fun self => (Return self, self).

(** [try: body / except E: handler], where [catches] tells the exceptions
    of class [E]. *)
Definition try_except {A} (body : M A) (catches : exn -> bool)
    (handler : exn -> M A) : M A := fun self =>
  match body self with
  | (Return a, self') => (Return a, self')
  | (Raise e, self') =>
      if catches e then handler e self' else (Raise e, self')
  end.

Definition is_Exception (e : exn) : bool := true.

Definition is_KeyError (e : exn) : bool :=
  match e with
  | KeyError _ => true
  | _ => false
  end.

Definition print (ex : exn) : M unit := fun self =>
  (Return tt, {| cls := cls self; unit_id := unit_id self; port := port self;
                 printed := printed self ++ [ex] |}).

(** The projector once [data] has been written to its port. *)
Definition after_write (self : Projector) (data : bytes) : Projector :=
  with_port self {| written := written (port self) ++ [data];
                    pending := pending (port self);
                    reads := reads (port self) |}.

(** [self.port.write(data)] *)
Definition port_write (data : bytes) : M unit := fun self =>
  (Return tt, after_write self data).

(** The bytes up to and including the first line feed, and the bytes after
    it; without a line feed the read times out with what has arrived. *)
Fixpoint split_line (l : bytes) : bytes * bytes :=
  match l with
  | [] => ([], [])
  | b :: l' =>
      if bool_decide (b = x0a) then ([b], l')
      else let '(line, rest) := split_line l' in (b :: line, rest)
  end.

(** The projector once a line has been read and [rest] is still to come. *)
Definition after_readline (self : Projector) (rest : bytes) : Projector :=
  with_port self {| written := written (port self);
                    pending := rest;
                    reads := S (reads (port self)) |}.

(** [self.port.readline()] *)
Definition port_readline : M bytes := fun self =>
  let '(line, rest) := split_line (pending (port self)) in
  (Return line, after_readline self rest).

(** ** [class Projector] *)

(** The list [pkt] that [send] joins and writes. *)
Definition pkt (header unit_id cmd : bytes) (data : option bytes) : list bytes :=
  let footer := [x0a] in
  match data with
  | Some d =>
      if truthy (VBytes d) then [header; unit_id; cmd; d; footer]
      else [header; unit_id; cmd; footer]
  | None => [header; unit_id; cmd; footer]
  end.

Definition recv (cmd : bytes) : M value :=
  self ← get_self;
  resp ← port_readline;
  match resp with
  | [] => raise (ProjectorCommunicationError no_response)
  | result_code :: _ =>
      msgtype ←
        (if (Byte.to_N result_code =? 0x06)%N then mret "ack"
         else if (Byte.to_N result_code =? 0x40)%N then mret "data"
         else raise (ProjectorCommunicationError
                       (unknown_result_code result_code)));
      (* ensure the unit ID matched *)
      let response_unit_id := slice resp 1 3 in
      if bool_decide (response_unit_id ≠ unit_id self) then
        raise (ProjectorCommunicationError (unknown_unit_id response_unit_id))
      else
        let response_cmd := slice resp 3 (3 + Z.of_nat (length cmd)) in
        if bool_decide (response_cmd ≠ cmd) then
          raise (ProjectorCommunicationError (command_mismatch response_cmd cmd))
        else
          (* don't include trailing \n *)
          let data := slice resp (3 + Z.of_nat (length cmd)) (-1) in
          if String.eqb msgtype "data" then mret (VBytes data)
          else if String.eqb msgtype "ack" then mret (VBool true)
          else if String.eqb msgtype "fail" then mret (VBool false)
          else raise (ValueError invalid_internal_msgtype)
  end.

Definition send (header cmd : bytes) (data response_cmd : option bytes)
    : M value :=
  self ← get_self;
  port_write (concat (pkt header (unit_id self) cmd data));;
  (* check for the command we sent back out, unless another was specified *)
  let response_cmd :=
    match response_cmd with
    | Some rc => if negb (truthy (VBytes rc)) then cmd else rc
    | None => cmd
    end in
  recv response_cmd.

Definition send_operating (cmd : bytes) (data response_cmd : option bytes)
    : M value :=
  send [x21] cmd data response_cmd.

Definition send_reference (cmd : bytes) (data : option bytes)
    : M (value * value) :=
  was_ok ← send [x3f] cmd data None;
  if py_eq was_ok (VBool true) then
    r ← recv cmd;
    mret (was_ok, r)
  else mret (was_ok, VNone).

Definition ready : M value := send_operating [x00; x00] None None.

Definition modes : gmap bytes string :=
  dict_of_items
    [ ([x30], "standby"); ([x31], "power-on"); ([x32], "cool-down");
      ([x34], "warning") ].

(** The property [mode]. When [send_reference] raises, [success] keeps its
    initial [None] and the method returns before it reads [state]. *)
Definition mode : M value :=
  r ← try_except (p ← send_reference [x50; x57] None; mret (Some p))
        is_Exception (fun ex => print ex;; mret None);
  match r with
  | None => mret VNone
  | Some (success, state) =>
      if negb (truthy success) then mret VNone
      else
        match bytes_dict_get modes state with
        | Some m => mret (VStr m)
        | None => raise (ValueError (unknown_power_state state))
        end
  end.

Definition turn_on : M value := send_operating [x50; x57] (Some [x31]) None.

Definition turn_off : M value := send_operating [x50; x57] (Some [x30]) None.

(** [self.INPUT_SOURCES[source]] *)
Definition source_to_code (source : string) : M bytes :=
  self ← get_self;
  match INPUT_SOURCES (cls self) !! source with
  | Some code => mret code
  | None => raise (KeyError (VStr source))
  end.

(** [self.SOURCE_CODES[code]] *)
Definition code_to_source (code : value) : M string :=
  self ← get_self;
  match bytes_dict_get (SOURCE_CODES (cls self)) code with
  | Some name => mret name
  | None => raise (KeyError code)
  end.

Definition valid_buttons : M (gset string) :=
  self ← get_self;
  mret (VALID_BUTTONS (cls self)).

(** [inr v] is the [return v] inside the [except] clause. *)
Definition set_input (source : string) : M value :=
  (* this command is only valid when powered on *)
  m ← mode;
  if negb (py_eq m (VStr "power-on")) then mret (VBool false)
  else
    r ← try_except (code ← source_to_code source; mret (inl code))
          is_KeyError
          (fun _ => mret (inr (VExc (ValueError (invalid_input (VStr source))))));
    match r with
    | inl code => send_operating [x49; x50] (Some code) None
    | inr v => mret v
    end.

Definition press_button (btn : string) : M value :=
  vb ← valid_buttons;
  if bool_decide (btn ∉ vb) then
    raise (ValueError (unsupported_button (VStr btn)))
  else
    match Button.CODES !! btn with
    | Some code =>
        send_operating [x52; x43; x37; x33] (Some code) (Some [x52; x43])
    | None => raise (KeyError (VStr btn))
    end.

(** The property [input]. *)
Definition input : M value :=
  (* this command is only valid when powered on *)
  m ← mode;
  if negb (py_eq m (VStr "power-on")) then mret VNone
  else
    '(success, state) ← send_reference [x49; x50] None;
    if negb (truthy success) then mret VNone
    else
      source ← try_except (code_to_source state) is_KeyError
                 (fun _ => raise (ValueError (unknown_video_state state)));
      mret (VStr source).

(** [Projector(port_url, unit_id)] of class [c], on a port that has written
    nothing and on which the device will send [incoming]. *)
Definition new_projector (c : ProjectorClass) (uid incoming : bytes)
    : Projector :=
  {| cls := c; unit_id := uid;
     port := {| written := []; pending := incoming; reads := 0 |};
     printed := [] |}.

Definition default_unit_id : bytes := [x89; x01].


(** [InputSource.name(name)] *)
Definition InputSource_name (name : string) : M string :=
  match InputSource.DISPLAY_NAMES !! name with
  | Some display => mret display
  | None => raise (KeyError (VStr name))
  end.

(** The loop of [valid_sources] over the sources still to visit. *)
Fixpoint valid_sources_loop (srcs : list string) (result : gmap string string)
    : M (gmap string string) :=
  match srcs with
  | [] => mret result
  | src :: srcs' =>
      display ← InputSource_name src;
      valid_sources_loop srcs' (<[src:=display]> result)
  end.

(** The property [valid_sources] of both subclasses; the set
    [VALID_SOURCES] is visited in the order [elements] lists it. *)
Definition valid_sources : M (gmap string string) :=
  self ← get_self;
  valid_sources_loop (elements (VALID_SOURCES (cls self))) ∅.

(** ** [server.py]: the handlers behind the routes

    The handlers work on the module's global [projector]; it is the state
    they pass along. What [server.py] takes from outside the repository is
    a parameter: [json.dumps], [str.lower], and the URL the projector was
    opened with ([projector.url]). *)
Module server.

(** The argument of [json.dumps] in the handlers: a dict display with
    string keys. *)
Definition pyobj := list (string * value).

Class Env := {
  (** [json.dumps(o)], [None] when it raises [TypeError] *)
  json_dumps : pyobj -> option string;
  (** [s.lower()] *)
  str_lower : string -> string;
  (** [projector.url] *)
  url : string
}.

(** [class WebException] *)
Record WebException := {
  code : string;
  msg : string
}.

Definition default_msgs : gmap string string :=
  dict_of_items
    [ ("404 Not Found", "The requested resource could not be found.");
      ("503 Service Unavailable", "The underlying service is not available.");
      ("500 Internal Server Error", "An internal exception occurred.") ].

(** [WebException(code, msg)], with [msg=None] by default. *)
Definition WebException_init (code : string) (msg : option string)
    : WebException :=
  match msg with
  | Some m =>
      if negb (truthy (VStr m)) then
        {| code := code; msg := default "" (default_msgs !! code) |}
      else {| code := code; msg := m |}
  | None => {| code := code; msg := default "" (default_msgs !! code) |}
  end.

(** What a handler raises: an exception of [projector.py], a
    [WebException], or the [TypeError] of [json.dumps]. *)
Inductive server_exn :=
  | ProjectorExn (e : exn)
  | WebExn (w : WebException)
  | TypeError (o : pyobj).

Inductive result (A : Type) :=
  | Returns (a : A)
  | Raises (e : server_exn).
Arguments Returns {A} a.
Arguments Raises {A} e.

Definition H (A : Type) : Type := Projector -> result A * Projector.

Definition ret {A} (a : A) : H A := fun projector => (Returns a, projector).

Definition bind {A B} (h : H A) (k : A -> H B) : H B := fun projector =>
  match h projector with
  | (Returns a, projector') => k a projector'
  | (Raises e, projector') => (Raises e, projector')
  end.

Definition raise {A} (e : server_exn) : H A := fun projector =>
  (Raises e, projector).

(** A method call or property access on [projector]. *)
Definition call {A} (m : M A) : H A := fun projector =>
  match m projector with
  | (Return a, projector') => (Returns a, projector')
  | (Raise e, projector') => (Raises (ProjectorExn e), projector')
  end.

(** The double quote. *)
Definition dquote : string := String (Ascii.ascii_of_nat 34) "".

Section handlers.
Context `{Env}.

Definition dumps (o : pyobj) : H string :=
  match json_dumps o with
  | Some text => ret text
  | None => raise (TypeError o)
  end.

(** The decorator [projector_command], applied to the call [f(...)]. *)
Definition projector_command {A} (f : H A) : H A := fun projector =>
  match f projector with
  | (Raises (ProjectorExn (ProjectorCommunicationError _)), projector') =>
      (Raises
         (WebExn
            (WebException_init "503 Service Unavailable"
               (Some ("Could not communicate with projector " +:+ dquote
                      +:+ url +:+ dquote
                      +:+ ". Is it connected and powered on?")))),
       projector')
  | r => r
  end.

Definition press (button : string) : H string :=
  projector_command (
    let button := str_lower button in
    match Button.CODES !! button with
    | None =>
        raise (WebExn (WebException_init "404 Not Found"
                         (Some ("No such button " +:+ button))))
    | Some _ =>
        bind (call (press_button button)) (fun success =>
        dumps [("success", success)])
    end).

Definition projector_status : H string :=
  projector_command (
    bind (call mode) (fun m =>
    bind (call input) (fun i =>
    bind (call get_self) (fun self =>
    dumps [("mode", m); ("input", i); ("model", VStr (model (cls self)))])))).

Definition set_input (source : string) : H string :=
  projector_command (
    bind (call valid_sources) (fun sources =>
    match sources !! source with
    | None =>
        raise (WebExn (WebException_init "404 Not Found"
                         (Some ("Invalid source " +:+ source))))
    | Some _ =>
        bind (call (set_input source)) (fun success =>
        dumps [("success", success)])
    end)).

Definition on : H string :=
  projector_command (
    bind (call turn_on) (fun success => dumps [("success", success)])).

Definition off : H string :=
  projector_command (
    bind (call turn_off) (fun success => dumps [("success", success)])).

End handlers.

(** An environment for examples: names are in lower case already, and
    [json.dumps] accepts [None], booleans and strings, which it writes
    without escapes, and rejects bytes and exception objects. *)
Definition example_value (v : value) : option string :=
  match v with
  | VNone => Some "null"
  | VBool true => Some "true"
  | VBool false => Some "false"
  | VStr s => Some (dquote +:+ s +:+ dquote)
  | VBytes _ | VExc _ => None
  end.

Fixpoint example_items (o : pyobj) : option (list string) :=
  match o with
  | [] => Some []
  | (key, v) :: o' =>
      text ← example_value v;
      texts ← example_items o';
      Some ((dquote +:+ key +:+ dquote +:+ ": " +:+ text) :: texts)
  end.

Definition example_env : Env := {|
  json_dumps o :=
    texts ← example_items o;
    Some ("{" +:+ String.concat ", " texts +:+ "}");
  str_lower s := s;
  url := "/dev/ttyUSB0"
|}.

End server.

(** * Properties *)

(** ** Bytes, lines and slices *)

Lemma to_N_x06 (b : byte) : (Byte.to_N b =? 0x06)%N = bool_decide (b = x06).
Proof. destruct b; reflexivity. Qed.

Lemma to_N_x40 (b : byte) : (Byte.to_N b =? 0x40)%N = bool_decide (b = x40).
Proof. destruct b; reflexivity. Qed.

(** A line that holds no line feed before its end is read whole. *)
Lemma split_line_terminated (l rest : bytes) :
  x0a ∉ l -> split_line (l ++ x0a :: rest) = (l ++ [x0a], rest).
Proof.
  induction l as [|b l IH]; intros Hl; simpl.
  - reflexivity.
  - apply not_elem_of_cons in Hl as [Hb Hl].
    rewrite bool_decide_eq_false_2 by congruence.
    rewrite (IH Hl). reflexivity.
Qed.

(** [readline] yields no bytes only when nothing is pending. *)
Lemma split_line_nil (l : bytes) : (split_line l).1 = [] -> l = [].
Proof.
  destruct l as [|b l]; simpl; [done|].
  case_bool_decide; [done|].
  destruct (split_line l); done.
Qed.

Lemma clamp_nonneg (i n : nat) : clamp (Z.of_nat i) n = Nat.min i n.
Proof.
  unfold clamp. destruct (Z.ltb_spec (Z.of_nat i) 0); [lia|].
  by rewrite Nat2Z.id.
Qed.

Lemma clamp_minus_one (n : nat) : clamp (-1) n = n - 1.
Proof. unfold clamp. simpl. lia. Qed.

Lemma slice_middle {A} (a b c : list A) :
  slice (a ++ b ++ c) (Z.of_nat (length a)) (Z.of_nat (length a + length b)) = b.
Proof.
  unfold slice. rewrite !clamp_nonneg, !length_app.
  replace (Nat.min (length a) _) with (length a) by lia.
  replace (Nat.min (length a + length b) _) with (length a + length b) by lia.
  rewrite drop_app_length.
  replace (length a + length b - length a) with (length b) by lia.
  by rewrite take_app_length.
Qed.

Lemma slice_to_last {A} (a b : list A) (x : A) :
  slice (a ++ b ++ [x]) (Z.of_nat (length a)) (-1) = b.
Proof.
  unfold slice. rewrite clamp_nonneg, clamp_minus_one, !length_app. simpl.
  replace (Nat.min (length a) _) with (length a) by lia.
  rewrite drop_app_length.
  replace (length a + (length b + 1) - 1 - length a) with (length b) by lia.
  by rewrite take_app_length.
Qed.

(** The joined packet, with or without data. *)
Lemma concat_pkt (header uid cmd : bytes) (data : option bytes) :
  concat (pkt header uid cmd data)
  = header ++ uid ++ cmd ++ default [] data ++ [x0a].
Proof.
  destruct data as [[|b d]|]; simpl; rewrite ?app_nil_r; reflexivity.
Qed.

Section frame_fields.
Context (h : byte) (uid cmd payload : bytes).
Hypothesis uid_length : length uid = 2.

Let frame := [h] ++ uid ++ cmd ++ payload ++ [x0a].

Lemma frame_unit_id : slice frame 1 3 = uid.
Proof.
  pose proof (slice_middle [h] uid (cmd ++ payload ++ [x0a])) as E.
  rewrite uid_length in E. exact E.
Qed.

Lemma frame_cmd : slice frame 3 (3 + Z.of_nat (length cmd)) = cmd.
Proof.
  pose proof (slice_middle ([h] ++ uid) cmd (payload ++ [x0a])) as E.
  rewrite length_app, uid_length in E. simpl in E.
  replace (3 + Z.of_nat (length cmd))%Z with (Z.of_nat (3 + length cmd)) by lia.
  exact E.
Qed.

Lemma frame_data : slice frame (3 + Z.of_nat (length cmd)) (-1) = payload.
Proof.
  pose proof (slice_to_last ([h] ++ uid ++ cmd) payload x0a) as E.
  rewrite !length_app, uid_length in E. simpl in E.
  rewrite <- app_assoc in E.
  replace (3 + Z.of_nat (length cmd))%Z
    with (Z.of_nat (1 + (2 + length cmd))) by lia.
  exact E.
Qed.
End frame_fields.

(** ** The cases of [recv] *)

Ltac unfold_M :=
  unfold mbind, M_bind, mret, M_ret, raise, get_self, port_readline,
    port_write, try_except, print.

Ltac run_recv Hline :=
  unfold recv; unfold_M; rewrite Hline; simpl;
  rewrite ?to_N_x06, ?to_N_x40.

Lemma recv_no_line (cmd : bytes) (self : Projector) (rest : bytes) :
  split_line (pending (port self)) = ([], rest) ->
  recv cmd self
  = (Raise (ProjectorCommunicationError no_response), after_readline self rest).
Proof. intros Hline. run_recv Hline. reflexivity. Qed.

Section recv_cases.
Context (cmd : bytes) (self : Projector) (rc : byte) (tl rest : bytes).
Hypothesis Hline : split_line (pending (port self)) = (rc :: tl, rest).

Let resp := rc :: tl.

Lemma recv_unknown_result_code :
  rc ≠ x06 -> rc ≠ x40 ->
  recv cmd self
  = (Raise (ProjectorCommunicationError (unknown_result_code rc)),
     after_readline self rest).
Proof.
  intros H06 H40. run_recv Hline.
  by rewrite !bool_decide_eq_false_2.
Qed.

Lemma recv_unit_id_mismatch :
  rc = x06 \/ rc = x40 ->
  slice resp 1 3 ≠ unit_id self ->
  recv cmd self
  = (Raise (ProjectorCommunicationError (unknown_unit_id (slice resp 1 3))),
     after_readline self rest).
Proof.
  intros Hrc Hu. run_recv Hline.
  destruct Hrc as [-> | ->]; simpl; by rewrite bool_decide_eq_true_2.
Qed.

Lemma recv_command_mismatch :
  rc = x06 \/ rc = x40 ->
  slice resp 1 3 = unit_id self ->
  slice resp 3 (3 + Z.of_nat (length cmd)) ≠ cmd ->
  recv cmd self
  = (Raise (ProjectorCommunicationError
              (command_mismatch (slice resp 3 (3 + Z.of_nat (length cmd))) cmd)),
     after_readline self rest).
Proof.
  intros Hrc Hu Hc. run_recv Hline.
  destruct Hrc as [-> | ->]; simpl;
    rewrite bool_decide_eq_false_2 by (intros Hne; by apply Hne);
    by rewrite bool_decide_eq_true_2.
Qed.

Lemma recv_ack :
  rc = x06 ->
  slice resp 1 3 = unit_id self ->
  slice resp 3 (3 + Z.of_nat (length cmd)) = cmd ->
  recv cmd self = (Return (VBool true), after_readline self rest).
Proof.
  intros -> Hu Hc. run_recv Hline. simpl.
  rewrite bool_decide_eq_false_2 by (intros Hne; by apply Hne).
  by rewrite bool_decide_eq_false_2 by (intros Hne; by apply Hne).
Qed.

Lemma recv_data :
  rc = x40 ->
  slice resp 1 3 = unit_id self ->
  slice resp 3 (3 + Z.of_nat (length cmd)) = cmd ->
  recv cmd self
  = (Return (VBytes (slice resp (3 + Z.of_nat (length cmd)) (-1))),
     after_readline self rest).
Proof.
  intros -> Hu Hc. run_recv Hline. simpl.
  rewrite bool_decide_eq_false_2 by (intros Hne; by apply Hne).
  by rewrite bool_decide_eq_false_2 by (intros Hne; by apply Hne).
Qed.
End recv_cases.

(** [recv] in closed form: the outcome as a function of the line read. *)
Lemma recv_run (cmd : bytes) (self : Projector) :
  recv cmd self
  = (match (split_line (pending (port self))).1 with
     | [] => Raise (ProjectorCommunicationError no_response)
     | rc :: tl =>
         let resp := rc :: tl in
         let response_cmd := slice resp 3 (3 + Z.of_nat (length cmd)) in
         if bool_decide (rc = x06 \/ rc = x40) then
           if bool_decide (slice resp 1 3 = unit_id self) then
             if bool_decide (response_cmd = cmd) then
               if bool_decide (rc = x40) then
                 Return (VBytes (slice resp (3 + Z.of_nat (length cmd)) (-1)))
               else Return (VBool true)
             else Raise (ProjectorCommunicationError
                           (command_mismatch response_cmd cmd))
           else Raise (ProjectorCommunicationError
                         (unknown_unit_id (slice resp 1 3)))
         else Raise (ProjectorCommunicationError (unknown_result_code rc))
     end,
     after_readline self (split_line (pending (port self))).2).
Proof.
  destruct (split_line (pending (port self))) as [[|rc tl] rest] eqn:Hline;
    simpl.
  - by apply recv_no_line.
  - repeat case_bool_decide.
    + by apply (recv_data _ _ rc tl rest Hline).
    + apply (recv_ack _ _ rc tl rest Hline); [tauto|done..].
    + by apply (recv_command_mismatch _ _ rc tl rest Hline).
    + by apply (recv_unit_id_mismatch _ _ rc tl rest Hline).
    + apply (recv_unknown_result_code _ _ rc tl rest Hline); tauto.
Qed.

(** [recv] reads one line and touches nothing else, whatever it returns. *)
Lemma recv_state (cmd : bytes) (self : Projector) :
  (recv cmd self).2
  = after_readline self (split_line (pending (port self))).2.
Proof. by rewrite recv_run. Qed.

(** [send] writes the joined packet and then receives. *)
Lemma send_run (header cmd : bytes) (data response_cmd : option bytes)
    (self : Projector) :
  send header cmd data response_cmd self
  = recv (match response_cmd with
          | Some rc => if negb (truthy (VBytes rc)) then cmd else rc
          | None => cmd
          end)
      (after_write self (concat (pkt header (unit_id self) cmd data))).
Proof. reflexivity. Qed.

(** ** What the methods do to the port *)

(** Runs the next [recv] of the goal: names its outcome and replaces the
    state it leaves by the state after one [readline]. *)
Ltac recv_step :=
  match goal with
  | |- context [recv ?c ?s] =>
      let o := fresh "o" in
      let s' := fresh "s" in
      let E := fresh "Hrecv" in
      let Hs := fresh "Hs" in
      destruct (recv c s) as [o s'] eqn:E;
      pose proof (recv_state c s) as Hs;
      rewrite E in Hs; simpl in Hs; subst s'; clear E
  end.

Ltac run_mode :=
  unfold mode, send_reference; unfold_M; rewrite send_run.

(** [mode] writes its query packet, once, and nothing else; the class and
    the unit id of the projector stay as they are. *)
Lemma mode_state (self : Projector) :
  cls (mode self).2 = cls self
  /\ unit_id (mode self).2 = unit_id self
  /\ written (port (mode self).2)
     = written (port self) ++ [concat (pkt [x3f] (unit_id self) [x50; x57] None)].
Proof.
  run_mode. recv_step.
  destruct o as [was_ok|e]; [|done].
  destruct (py_eq was_ok (VBool true)).
  - recv_step. destruct o as [state|e]; [|done].
    destruct (negb (truthy was_ok)); [done|].
    by destruct (bytes_dict_get modes state).
  - simpl. destruct (negb (truthy was_ok)); done.
Qed.

(** What [readline] returned, in terms of the pending bytes. *)
Lemma port_readline_inv (self self' : Projector) (resp : bytes) :
  port_readline self = (Return resp, self') ->
  (split_line (pending (port self))).1 = resp
  /\ self' = after_readline self (split_line (pending (port self))).2.
Proof.
  unfold port_readline.
  destruct (split_line (pending (port self))) as [line rest].
  intros [= <- <-]. done.
Qed.

Lemma port_readline_run (self : Projector) :
  port_readline self
  = (Return (split_line (pending (port self))).1,
     after_readline self (split_line (pending (port self))).2).
Proof.
  unfold port_readline. by destruct (split_line (pending (port self))).
Qed.

(** ** The frame decoder [recv] *)

(** C7: when [readline] yields no bytes, [recv] raises
    [ProjectorCommunicationError] "no response from projector" and returns
    no value; so does a [send] on such a port, once it has written its
    packet; and the error can be caught: [mode] catches it, prints it and
    returns [None]. *)
Theorem recv_no_response (cmd : bytes) (self self' : Projector) :
  port_readline self = (Return [], self') ->
  recv cmd self = (Raise (ProjectorCommunicationError no_response), self')
  /\ (forall header data response_cmd,
        (send header cmd data response_cmd self).1
        = Raise (ProjectorCommunicationError no_response))
  /\ (mode self).1 = Return VNone
  /\ printed (mode self).2
     = printed self ++ [ProjectorCommunicationError no_response].
Proof.
  intros [Hresp ->]%port_readline_inv.
  pose proof (split_line_nil _ Hresp) as Hpending.
  split; [|split].
  - rewrite recv_run, Hresp. done.
  - intros header data response_cmd.
    rewrite send_run, recv_run. simpl. by rewrite Hpending.
  - run_mode. rewrite recv_run. simpl. by rewrite Hpending.
Qed.

Lemma recv_no_response_witness :
  let self := new_projector HD250 default_unit_id [] in
  recv [x50; x57] self
  = (Raise (ProjectorCommunicationError no_response),
     after_readline self []).
Proof.
  intros self.
  exact (proj1 (recv_no_response [x50; x57] self (after_readline self [])
                  eq_refl)).
Defined.

(** C10: whenever [recv] returns, it returns [True], for a line that starts
    with 0x06, or the data bytes of the line, for a line that starts with
    0x40; it never returns [False] and never raises [ValueError]: the
    branches for msgtype "fail" and for an invalid msgtype are not reached. *)
Theorem recv_returns_true_or_data (cmd : bytes) (self : Projector) :
  (forall v self',
     recv cmd self = (Return v, self') ->
     exists resp,
       port_readline self = (Return resp, self')
       /\ ((head resp = Some x06 /\ v = VBool true)
           \/ (head resp = Some x40
               /\ v = VBytes (slice resp (3 + Z.of_nat (length cmd)) (-1)))))
  /\ (forall self', recv cmd self <> (Return (VBool false), self'))
  /\ (forall m self', recv cmd self <> (Raise (ValueError m), self')).
Proof.
  rewrite recv_run, port_readline_run.
  destruct (split_line (pending (port self))) as [[|rc tl] rest]; simpl.
  { split; [|split]; intros; congruence. }
  split; [|split].
  - intros v self' Hret. exists (rc :: tl).
    repeat case_bool_decide; simplify_eq; simpl; auto.
    destruct H as [->| ->]; [auto|done].
  - intros self'. repeat case_bool_decide; congruence.
  - intros m self'. repeat case_bool_decide; congruence.
Qed.

Lemma recv_returns_true_or_data_witness :
  exists resp,
    port_readline
      (new_projector HD250 default_unit_id [x40; x89; x01; x49; x50; x36; x0a])
    = (Return resp,
       after_readline
         (new_projector HD250 default_unit_id
            [x40; x89; x01; x49; x50; x36; x0a]) [])
    /\ ((head resp = Some x06 /\ VBytes [x36] = VBool true)
        \/ (head resp = Some x40
            /\ VBytes [x36]
               = VBytes (slice resp (3 + Z.of_nat (length [x49; x50])) (-1)))).
Proof.
  exact (proj1 (recv_returns_true_or_data [x49; x50]
                  (new_projector HD250 default_unit_id
                     [x40; x89; x01; x49; x50; x36; x0a]))
           (VBytes [x36]) _ eq_refl).
Defined.

(** C3: on a non-empty line [resp], [recv] raises "unknown result code"
    exactly when the first byte is neither 0x06 nor 0x40; with such a first
    byte it raises "unknown unit id" exactly when [resp[1:3]] differs from
    [self.unit_id]; and with a matching unit id it raises the command
    mismatch error exactly when [resp[3:3+len(cmd)]] differs from [cmd].
    All three are [ProjectorCommunicationError]s. *)
Theorem recv_protocol_errors (cmd : bytes) (self self' : Projector)
    (resp : bytes) :
  port_readline self = (Return resp, self') ->
  resp <> [] ->
  let result_code_ok := head resp = Some x06 \/ head resp = Some x40 in
  let response_unit_id := slice resp 1 3 in
  let response_cmd := slice resp 3 (3 + Z.of_nat (length cmd)) in
  ((exists rc,
      recv cmd self
      = (Raise (ProjectorCommunicationError (unknown_result_code rc)), self'))
   <-> ~ result_code_ok)
  /\ (result_code_ok ->
      ((exists u,
          recv cmd self
          = (Raise (ProjectorCommunicationError (unknown_unit_id u)), self'))
       <-> response_unit_id <> unit_id self))
  /\ (result_code_ok -> response_unit_id = unit_id self ->
      ((exists c c',
          recv cmd self
          = (Raise (ProjectorCommunicationError (command_mismatch c c')), self'))
       <-> response_cmd <> cmd)).
Proof.
  intros [Hresp ->]%port_readline_inv Hne. rewrite recv_run, Hresp.
  destruct resp as [|rc tl]; [done|]. simpl.
  assert ((rc = x06 \/ rc = x40) <-> (Some rc = Some x06 \/ Some rc = Some x40))
    as Hrc by (split; intros [?|?]; simplify_eq; auto).
  split; [|split].
  - repeat case_bool_decide; (split; [intros [? [=]] | intros ?]); try tauto.
    by eexists.
  - intros Hok. rewrite bool_decide_eq_true_2 by tauto.
    repeat case_bool_decide; (split; [intros [? [=]] | intros ?]); try tauto.
    by eexists.
  - intros Hok Hu. rewrite bool_decide_eq_true_2 by tauto.
    rewrite bool_decide_eq_true_2 by done.
    repeat case_bool_decide; (split; [intros (? & ? & [=]) | intros ?]);
      try tauto.
    by do 2 eexists.
Qed.

Lemma recv_protocol_errors_witness :
  let self := new_projector HD250 default_unit_id [x15; x89; x01; x0a] in
  (exists rc,
     recv [x50; x57] self
     = (Raise (ProjectorCommunicationError (unknown_result_code rc)),
        after_readline self []))
  <-> ~ (head [x15; x89; x01; x0a] = Some x06
         \/ head [x15; x89; x01; x0a] = Some x40).
Proof.
  intros self.
  refine (proj1 (recv_protocol_errors [x50; x57] self (after_readline self [])
                   [x15; x89; x01; x0a] eq_refl _)).
  discriminate.
Defined.

(** C2, as the code has it: [recv] applied to a packet that [send] builds
    under a header 0x06 or 0x40, sent from the projector's own two-byte unit
    id. The line is read whole when neither the unit id, the command nor the
    payload holds a line feed; its slices are the unit id, the command and
    the payload; [recv] returns the payload under 0x40 and [True] under
    0x06. *)
Theorem recv_pkt_roundtrip (h : byte) (cmd payload rest : bytes)
    (self : Projector) :
  h = x06 \/ h = x40 ->
  length (unit_id self) = 2 ->
  x0a ∉ unit_id self -> x0a ∉ cmd -> x0a ∉ payload ->
  pending (port self)
  = concat (pkt [h] (unit_id self) cmd (Some payload)) ++ rest ->
  let frame := concat (pkt [h] (unit_id self) cmd (Some payload)) in
  slice frame 1 3 = unit_id self
  /\ slice frame 3 (3 + Z.of_nat (length cmd)) = cmd
  /\ slice frame (3 + Z.of_nat (length cmd)) (-1) = payload
  /\ recv cmd self
     = (Return (if bool_decide (h = x40) then VBytes payload else VBool true),
        after_readline self rest).
Proof.
  intros Hh Hlen Hu Hc Hp Hpending frame. subst frame.
  rewrite concat_pkt in *. simpl default in *.
  pose proof (frame_unit_id h _ cmd payload Hlen) as E1.
  pose proof (frame_cmd h _ cmd payload Hlen) as E2.
  pose proof (frame_data h _ cmd payload Hlen) as E3.
  repeat (split; [assumption|]).
  assert (split_line (pending (port self))
          = ([h] ++ unit_id self ++ cmd ++ payload ++ [x0a], rest)) as Hline.
  { rewrite Hpending.
    pose proof (split_line_terminated ([h] ++ unit_id self ++ cmd ++ payload) rest)
      as E.
    rewrite <- !app_assoc in *. apply E.
    rewrite !not_elem_of_app, not_elem_of_cons.
    repeat split; try assumption; [|apply not_elem_of_nil].
    destruct Hh as [-> | ->]; discriminate. }
  destruct Hh as [-> | ->].
  - rewrite (recv_ack cmd self _ _ rest Hline eq_refl E1 E2). done.
  - rewrite (recv_data cmd self _ _ rest Hline eq_refl E1 E2).
    simpl in E3. rewrite E3. done.
Qed.

Lemma recv_pkt_roundtrip_witness :
  let self :=
    new_projector HD250 default_unit_id
      (concat (pkt [x40] default_unit_id [x49; x50] (Some [x36])) ++ []) in
  recv [x49; x50] self = (Return (VBytes [x36]), after_readline self []).
Proof.
  intros self.
  refine (proj2 (proj2 (proj2
    (recv_pkt_roundtrip x40 [x49; x50] [x36] [] self
       (or_intror eq_refl) eq_refl _ _ _ eq_refl)))).
  - rewrite list_elem_of_In. simpl. intuition discriminate.
  - rewrite list_elem_of_In. simpl. intuition discriminate.
  - rewrite list_elem_of_In. simpl. intuition discriminate.
Defined.

(** C2, for every header byte, fails: the packet that [send] writes under
    the operating header 0x21 is not a line [recv] accepts; [recv] raises
    "unknown result code" and returns no payload. *)
Lemma recv_pkt_counterexample :
  let self :=
    new_projector HD250 default_unit_id
      (concat (pkt [x21] default_unit_id [x50; x57] (Some [x31]))) in
  (recv [x50; x57] self).1
  = Raise (ProjectorCommunicationError (unknown_result_code x21))
  /\ (recv [x50; x57] self).1 <> Return (VBytes [x31]).
Proof. split; [reflexivity | discriminate]. Qed.

(** ** The operations of the projector *)

(** C8: with unit id 0x89 0x01, [turn_on] writes the one packet
    21 89 01 50 57 31 0A, and when the device answers 06 89 01 50 57 0A it
    returns [True]. *)
Theorem turn_on_frame (c : ProjectorClass) (w : list bytes) (rest : bytes)
    (n : nat) (out : list exn) :
  turn_on
    {| cls := c; unit_id := [x89; x01];
       port := {| written := w;
                  pending := [x06; x89; x01; x50; x57; x0a] ++ rest;
                  reads := n |};
       printed := out |}
  = (Return (VBool true),
     {| cls := c; unit_id := [x89; x01];
        port := {| written := w ++ [[x21; x89; x01; x50; x57; x31; x0a]];
                   pending := rest;
                   reads := S n |};
        printed := out |}).
Proof. reflexivity. Qed.

(** C6: [press_button] with a button that is not in the class's
    [VALID_BUTTONS] raises [ValueError] and leaves the projector as it was:
    nothing is written to the port and no line is read from it. *)
Theorem press_button_unsupported (btn : string) (self : Projector) :
  btn ∉ VALID_BUTTONS (cls self) ->
  press_button btn self
  = (Raise (ValueError (unsupported_button (VStr btn))), self).
Proof.
  intros Hbtn. unfold press_button, valid_buttons. unfold_M.
  by rewrite bool_decide_eq_true_2.
Qed.

Lemma press_button_unsupported_witness :
  let self := new_projector RS40 default_unit_id [] in
  press_button Button.INPUT self
  = (Raise (ValueError (unsupported_button (VStr Button.INPUT))), self).
Proof.
  intros self. apply (press_button_unsupported Button.INPUT self).
  apply (bool_decide_unpack _). vm_compute. reflexivity.
Defined.

Lemma py_eq_ne_str (m : value) (s : string) :
  m <> VStr s -> py_eq m (VStr s) = false.
Proof.
  intros Hm. destruct m; simpl; try reflexivity.
  apply bool_decide_eq_false_2. congruence.
Qed.

Lemma py_eq_True (v : value) : py_eq v (VBool true) = true -> v = VBool true.
Proof.
  destruct v; simpl; try discriminate.
  intros Hb%bool_decide_eq_true_1. by subst.
Qed.

(** [send_reference] hands back a second component other than [None] only
    after an acknowledged first phase. *)
Lemma send_reference_second (cmd : bytes) (data : option bytes)
    (self self' : Projector) (was_ok r : value) :
  send_reference cmd data self = (Return (was_ok, r), self') ->
  r <> VNone -> was_ok = VBool true.
Proof.
  unfold send_reference. unfold_M.
  destruct (send [x3f] cmd data None self) as [[v|e] s1]; [|done].
  destruct (py_eq v (VBool true)) eqn:Hv.
  - destruct (recv cmd s1) as [[v'|e] s2]; [|done].
    intros [= <- _ _] _. by apply py_eq_True.
  - intros [= _ <- _]. done.
Qed.

(** C5: when [mode] returns anything but "power-on", [input] returns [None]
    and [set_input] returns [False], both in the state [mode] left: the only
    packet written is the power query of [mode] itself, and nothing is
    written or read after it. *)
Theorem not_powered_on_no_io (self self' : Projector) (m : value) :
  mode self = (Return m, self') ->
  m <> VStr "power-on" ->
  input self = (Return VNone, self')
  /\ (forall source, set_input source self = (Return (VBool false), self'))
  /\ written (port self')
     = written (port self)
       ++ [concat (pkt [x3f] (unit_id self) [x50; x57] None)].
Proof.
  intros Hmode Hm.
  pose proof (mode_state self) as (_ & _ & Hw). rewrite Hmode in Hw.
  unfold input, set_input, mbind, M_bind, mret, M_ret.
  rewrite Hmode, (py_eq_ne_str _ _ Hm). simpl. done.
Qed.

Lemma not_powered_on_no_io_witness :
  let self :=
    new_projector HD250 default_unit_id
      [x06; x89; x01; x50; x57; x0a; x40; x89; x01; x50; x57; x30; x0a] in
  (input self).1 = Return VNone
  /\ (set_input InputSource.HDMI_1 self).1 = Return (VBool false).
Proof.
  intros self.
  assert (VStr "standby" <> VStr "power-on") as Hm by discriminate.
  split.
  - exact (f_equal fst
      (proj1 (not_powered_on_no_io self (mode self).2 (VStr "standby")
                eq_refl Hm))).
  - exact (f_equal fst
      (proj1 (proj2 (not_powered_on_no_io self (mode self).2 (VStr "standby")
                       eq_refl Hm)) InputSource.HDMI_1)).
Defined.

(** When the projector is powered on and [source] is not a key of the
    class's [INPUT_SOURCES], [set_input] returns the [ValueError] object: it
    does not raise it, and it writes nothing after the power query. *)
Lemma set_input_invalid_source (source : string) (self self' : Projector) :
  mode self = (Return (VStr "power-on"), self') ->
  INPUT_SOURCES (cls self) !! source = None ->
  set_input source self
  = (Return (VExc (ValueError (invalid_input (VStr source)))), self').
Proof.
  intros Hmode Hsrc.
  pose proof (mode_state self) as (Hcls & _). rewrite Hmode in Hcls.
  unfold set_input, source_to_code. unfold_M. rewrite Hmode. simpl.
  simpl in Hcls. by rewrite Hcls, Hsrc.
Qed.

(** C1, on the code: for class [RS40] and a projector that reports
    "power-on", [set_input("video")] does not raise: it returns the
    [ValueError] object as its value, after the power query and its two
    lines. *)
Theorem set_input_video_RS40_returns_error :
  let self :=
    new_projector RS40 default_unit_id
      [x06; x89; x01; x50; x57; x0a; x40; x89; x01; x50; x57; x31; x0a] in
  mode self
  = (Return (VStr "power-on"),
     {| cls := RS40; unit_id := default_unit_id;
        port := {| written := [[x3f; x89; x01; x50; x57; x0a]];
                   pending := []; reads := 2 |};
        printed := [] |})
  /\ INPUT_SOURCES RS40 !! InputSource.VIDEO = None
  /\ set_input InputSource.VIDEO self
     = (Return (VExc (ValueError (invalid_input (VStr InputSource.VIDEO)))),
        {| cls := RS40; unit_id := default_unit_id;
           port := {| written := [[x3f; x89; x01; x50; x57; x0a]];
                      pending := []; reads := 2 |};
           printed := [] |}).
Proof. repeat split. Qed.

(** C4: when the power query succeeds with the single data byte [b], [mode]
    returns "standby" for 0x30, "power-on" for 0x31, "cool-down" for 0x32
    and "warning" for 0x34, and for every other byte it raises [ValueError]
    "unknown power state"; no byte is mapped to a default. *)
Theorem mode_decodes_power_state (self self' : Projector) (success : value)
    (b : byte) :
  send_reference [x50; x57] None self
  = (Return (success, VBytes [b]), self') ->
  mode self
  = (match b with
     | x30 => Return (VStr "standby")
     | x31 => Return (VStr "power-on")
     | x32 => Return (VStr "cool-down")
     | x34 => Return (VStr "warning")
     | _ => Raise (ValueError (unknown_power_state (VBytes [b])))
     end, self').
Proof.
  intros Href.
  assert (success = VBool true) as ->
    by (by eapply send_reference_second).
  unfold mode, try_except, mbind, M_bind, mret, M_ret. rewrite Href.
  simpl. destruct b; reflexivity.
Qed.

Lemma mode_decodes_power_state_witness :
  let self :=
    new_projector HD250 default_unit_id
      [x06; x89; x01; x50; x57; x0a; x40; x89; x01; x50; x57; x31; x0a] in
  (mode self).1 = Return (VStr "power-on").
Proof.
  intros self.
  exact (f_equal fst
    (mode_decodes_power_state self
       (send_reference [x50; x57] None self).2 (VBool true) x31 eq_refl)).
Defined.

(** The scenario of the undocumented byte 0x39. *)
Example mode_unknown_byte :
  (mode (new_projector HD250 default_unit_id
           [x06; x89; x01; x50; x57; x0a; x40; x89; x01; x50; x57; x39; x0a])).1
  = Raise (ValueError (unknown_power_state (VBytes [x39]))).
Proof. reflexivity. Qed.

(** ** The input tables of the two classes *)

Ltac run_lookup Hcls :=
  unfold source_to_code, code_to_source; unfold_M; rewrite Hcls.

(** Splits a membership in an explicit list into its cases. *)
Ltac list_cases H :=
  repeat (apply elem_of_cons in H as [H|H]); [..|by apply elem_of_nil in H].

(** C9: in [HD250] and in [RS40], [INPUT_SOURCES] and [SOURCE_CODES] are
    inverse to each other: [code_to_source(source_to_code(source))] is
    [source] for every source of [VALID_SOURCES], and
    [source_to_code(code_to_source(code))] is [code] for every key of
    [SOURCE_CODES]; neither lookup raises. *)
Theorem input_codes_bijective (self : Projector) :
  cls self = HD250 \/ cls self = RS40 ->
  (forall source,
     source ∈ VALID_SOURCES (cls self) ->
     exists code,
       source_to_code source self = (Return code, self)
       /\ code_to_source (VBytes code) self = (Return source, self))
  /\ (forall code,
        code ∈ dom (SOURCE_CODES (cls self)) ->
        exists source,
          code_to_source (VBytes code) self = (Return source, self)
          /\ source_to_code source self = (Return code, self)).
Proof.
  intros [Hcls|Hcls]; (split; [intros source Hin | intros code Hin]);
    rewrite Hcls in Hin.
  - apply elem_of_list_to_set in Hin. simpl in Hin.
    list_cases Hin; subst source; eexists; run_lookup Hcls;
      split; reflexivity.
  - apply elem_of_dom in Hin as [source Hin].
    apply elem_of_map_to_list in Hin.
    set (l := map_to_list (SOURCE_CODES HD250)) in Hin.
    vm_compute in l. subst l.
    list_cases Hin; simplify_eq; eexists; run_lookup Hcls;
      split; reflexivity.
  - apply elem_of_list_to_set in Hin. simpl in Hin.
    list_cases Hin; subst source; eexists; run_lookup Hcls;
      split; reflexivity.
  - apply elem_of_dom in Hin as [source Hin].
    apply elem_of_map_to_list in Hin.
    set (l := map_to_list (SOURCE_CODES RS40)) in Hin.
    vm_compute in l. subst l.
    list_cases Hin; simplify_eq; eexists; run_lookup Hcls;
      split; reflexivity.
Qed.

Lemma input_codes_bijective_witness :
  exists code,
    source_to_code InputSource.HDMI_1 (new_projector RS40 default_unit_id [])
    = (Return code, new_projector RS40 default_unit_id [])
    /\ code_to_source (VBytes code) (new_projector RS40 default_unit_id [])
       = (Return InputSource.HDMI_1, new_projector RS40 default_unit_id []).
Proof.
  refine (proj1 (input_codes_bijective (new_projector RS40 default_unit_id [])
                   (or_intror eq_refl)) InputSource.HDMI_1 _).
  apply (bool_decide_unpack _). vm_compute. reflexivity.
Defined.

(** * Further properties of [projector.py] *)

(** ** Lines and replies *)

Lemma split_line_app (l : bytes) : (split_line l).1 ++ (split_line l).2 = l.
Proof.
  induction l as [|b l IH]; simpl; [done|].
  case_bool_decide; [done|].
  destruct (split_line l) as [line rest]. simpl in *. by rewrite IH.
Qed.

(** Without a line feed the read times out and yields all that is pending. *)
Lemma split_line_unterminated (l : bytes) : x0a ∉ l -> split_line l = (l, []).
Proof.
  induction l as [|b l IH]; intros Hl; simpl; [done|].
  apply not_elem_of_cons in Hl as [Hb Hl].
  rewrite bool_decide_eq_false_2 by congruence.
  by rewrite (IH Hl).
Qed.

(** A well-formed reply line, followed by [rest], as [recv] handles it. *)
Lemma recv_reply (h : byte) (cmd extra rest : bytes) (self : Projector) :
  h = x06 \/ h = x40 ->
  length (unit_id self) = 2 ->
  x0a ∉ unit_id self -> x0a ∉ cmd -> x0a ∉ extra ->
  pending (port self) = [h] ++ unit_id self ++ cmd ++ extra ++ [x0a] ++ rest ->
  recv cmd self
  = (Return (if bool_decide (h = x40) then VBytes extra else VBool true),
     after_readline self rest).
Proof.
  intros Hh Hlen Hu Hc He Hpending.
  pose proof (frame_unit_id h _ cmd extra Hlen) as E1.
  pose proof (frame_cmd h _ cmd extra Hlen) as E2.
  pose proof (frame_data h _ cmd extra Hlen) as E3.
  assert (split_line (pending (port self))
          = ([h] ++ unit_id self ++ cmd ++ extra ++ [x0a], rest)) as Hline.
  { rewrite Hpending.
    pose proof (split_line_terminated ([h] ++ unit_id self ++ cmd ++ extra) rest)
      as E.
    rewrite <- !app_assoc in *. apply E.
    rewrite !not_elem_of_app, not_elem_of_cons.
    repeat split; try assumption; [|apply not_elem_of_nil].
    destruct Hh as [-> | ->]; discriminate. }
  destruct Hh as [-> | ->].
  - by rewrite (recv_ack cmd self _ _ rest Hline eq_refl E1 E2).
  - rewrite (recv_data cmd self _ _ rest Hline eq_refl E1 E2).
    simpl in E3. by rewrite E3.
Qed.

(** X1: [send] writes one packet, the header, the unit id, the command, the
    data when there is some and a line feed, and checks the echo against
    [response_cmd], or against [cmd] when no (or an empty) [response_cmd] is
    given. On a reply line 06/40, unit id, expected echo, [extra], line feed
    it returns [True] for 0x06 and [extra] for 0x40, and leaves what follows
    the line pending. *)
Theorem send_reply (h : byte) (header cmd extra rest : bytes)
    (data response_cmd : option bytes) (self : Projector) :
  let expected :=
    match response_cmd with
    | Some [] | None => cmd
    | Some rc => rc
    end in
  h = x06 \/ h = x40 ->
  length (unit_id self) = 2 ->
  x0a ∉ unit_id self -> x0a ∉ expected -> x0a ∉ extra ->
  pending (port self)
  = [h] ++ unit_id self ++ expected ++ extra ++ [x0a] ++ rest ->
  send header cmd data response_cmd self
  = (Return (if bool_decide (h = x40) then VBytes extra else VBool true),
     after_readline
       (after_write self
          (header ++ unit_id self ++ cmd ++ default [] data ++ [x0a]))
       rest).
Proof.
  intros expected Hh Hlen Hu Hc He Hpending.
  rewrite send_run, concat_pkt.
  replace (match response_cmd with
           | Some rc => if negb (truthy (VBytes rc)) then cmd else rc
           | None => cmd
           end) with expected by (by destruct response_cmd as [[|]|]).
  by apply recv_reply.
Qed.

Lemma send_reply_witness :
  let self :=
    new_projector RS40 default_unit_id [x06; x89; x01; x52; x43; x0a] in
  send [x21] [x52; x43; x37; x33] (Some [x30; x31]) (Some [x52; x43]) self
  = (Return (VBool true),
     after_readline
       (after_write self
          [x21; x89; x01; x52; x43; x37; x33; x30; x31; x0a]) []).
Proof.
  intros self.
  refine (send_reply x06 [x21] [x52; x43; x37; x33] [] []
            (Some [x30; x31]) (Some [x52; x43]) self
            (or_introl eq_refl) eq_refl _ _ _ eq_refl);
    rewrite list_elem_of_In; simpl; intuition discriminate.
Defined.

(** X2: the two phases of [send_reference]. After the packet with header
    0x3f, an Ack line for [cmd] followed by a Data line for [cmd] gives
    [(True, payload)]: one packet written, two lines read. *)
Theorem send_reference_two_phase (cmd payload rest : bytes)
    (data : option bytes) (self : Projector) :
  length (unit_id self) = 2 ->
  x0a ∉ unit_id self -> x0a ∉ cmd -> x0a ∉ payload ->
  pending (port self)
  = ([x06] ++ unit_id self ++ cmd ++ [x0a])
    ++ ([x40] ++ unit_id self ++ cmd ++ payload ++ [x0a]) ++ rest ->
  send_reference cmd data self
  = (Return (VBool true, VBytes payload),
     with_port self
       {| written :=
            written (port self)
            ++ [[x3f] ++ unit_id self ++ cmd ++ default [] data ++ [x0a]];
          pending := rest;
          reads := S (S (reads (port self))) |}).
Proof.
  intros Hlen Hu Hc Hp Hpending.
  unfold send_reference. unfold_M. rewrite send_run, concat_pkt.
  set (s1 := after_write self _).
  rewrite (recv_reply x06 cmd []
             (([x40] ++ unit_id self ++ cmd ++ payload ++ [x0a]) ++ rest) s1);
    [|auto|done|done|done|apply not_elem_of_nil|].
  2: { simpl. rewrite Hpending. simpl. by rewrite <- ?app_assoc. }
  simpl.
  set (s2 := after_readline s1 _).
  rewrite (recv_reply x40 cmd payload rest s2);
    [|auto|done|done|done|done|by simpl; rewrite <- ?app_assoc].
  reflexivity.
Qed.

Lemma send_reference_two_phase_witness :
  (send_reference [x49; x50] None
     (new_projector RS40 default_unit_id
        (([x06] ++ default_unit_id ++ [x49; x50] ++ [x0a])
         ++ ([x40] ++ default_unit_id ++ [x49; x50] ++ [x36] ++ [x0a]) ++ []))).1
  = Return (VBool true, VBytes [x36]).
Proof.
  refine (f_equal fst
    (send_reference_two_phase [x49; x50] [x36] [] None
       (new_projector RS40 default_unit_id _) eq_refl _ _ _ eq_refl));
    rewrite list_elem_of_In; simpl; intuition discriminate.
Defined.

(** X3: when the device answers the reference packet with a Data line at
    once, [send_reference] returns [(payload, None)]: the bytes are not
    [True], so no second line is read and what follows stays pending. *)
Theorem send_reference_data_first (cmd payload rest : bytes)
    (data : option bytes) (self : Projector) :
  length (unit_id self) = 2 ->
  x0a ∉ unit_id self -> x0a ∉ cmd -> x0a ∉ payload ->
  pending (port self)
  = [x40] ++ unit_id self ++ cmd ++ payload ++ [x0a] ++ rest ->
  send_reference cmd data self
  = (Return (VBytes payload, VNone),
     with_port self
       {| written :=
            written (port self)
            ++ [[x3f] ++ unit_id self ++ cmd ++ default [] data ++ [x0a]];
          pending := rest;
          reads := S (reads (port self)) |}).
Proof.
  intros Hlen Hu Hc Hp Hpending.
  unfold send_reference. unfold_M. rewrite send_run, concat_pkt.
  set (s1 := after_write self _).
  by rewrite (recv_reply x40 cmd payload rest s1) by auto.
Qed.

Lemma send_reference_data_first_witness :
  (send_reference [x50; x57] None
     (new_projector RS40 default_unit_id
        ([x40] ++ default_unit_id ++ [x50; x57] ++ [x31] ++ [x0a]
         ++ [x40; x0a]))).1
  = Return (VBytes [x31], VNone).
Proof.
  refine (f_equal fst
    (send_reference_data_first [x50; x57] [x31] [x40; x0a] None
       (new_projector RS40 default_unit_id _) eq_refl _ _ _ eq_refl));
    rewrite list_elem_of_In; simpl; intuition discriminate.
Defined.

(** X4: when the device answers the power query with a Data line at once,
    [mode] has no state to decode: it returns [None] for an empty payload
    and raises [ValueError] "unknown power state None" for any other, also
    for the payload 0x31 of a projector that is on. *)
Theorem mode_data_first (payload rest : bytes) (self : Projector) :
  length (unit_id self) = 2 ->
  x0a ∉ unit_id self -> x0a ∉ payload ->
  pending (port self)
  = [x40] ++ unit_id self ++ [x50; x57] ++ payload ++ [x0a] ++ rest ->
  mode self
  = (if bool_decide (payload = []) then Return VNone
     else Raise (ValueError (unknown_power_state VNone)),
     with_port self
       {| written :=
            written (port self) ++ [[x3f] ++ unit_id self ++ [x50; x57; x0a]];
          pending := rest;
          reads := S (reads (port self)) |}).
Proof.
  intros Hlen Hu Hp Hpending.
  unfold mode, send_reference. unfold_M. rewrite send_run, concat_pkt.
  set (s1 := after_write self _).
  rewrite (recv_reply x40 [x50; x57] payload rest s1); auto.
  - simpl. by destruct payload.
  - rewrite list_elem_of_In. simpl. intuition discriminate.
Qed.

Lemma mode_data_first_witness :
  (mode (new_projector RS40 default_unit_id
           ([x40] ++ default_unit_id ++ [x50; x57] ++ [x31] ++ [x0a] ++ []))).1
  = Raise (ValueError (unknown_power_state VNone)).
Proof.
  refine (f_equal fst
    (mode_data_first [x31] [] (new_projector RS40 default_unit_id _)
       eq_refl _ _ eq_refl));
    rewrite list_elem_of_In; simpl; intuition discriminate.
Defined.

(** The names [modes] holds. *)
Lemma modes_names (state : value) (m : string) :
  bytes_dict_get modes state = Some m ->
  m ∈ ["standby"; "power-on"; "cool-down"; "warning"].
Proof.
  destruct state as [| |bs| |]; simpl; try discriminate.
  intros Hm%elem_of_map_to_list.
  set (l := map_to_list modes) in Hm. vm_compute in l. subst l.
  list_cases Hm; simplify_eq; set_solver.
Qed.

(** X5: [mode] lets no communication error out. Whatever the device sends,
    it returns [None] or one of the four mode names, or raises [ValueError]
    "unknown power state"; it reads one or two lines and prints at most one
    exception. *)
Theorem mode_outcomes (self : Projector) :
  ((mode self).1 = Return VNone
   \/ (exists m,
         m ∈ ["standby"; "power-on"; "cool-down"; "warning"]
         /\ (mode self).1 = Return (VStr m))
   \/ (exists state,
         (mode self).1 = Raise (ValueError (unknown_power_state state))))
  /\ S (reads (port self)) <= reads (port (mode self).2)
     <= S (S (reads (port self)))
  /\ length (printed (mode self).2) <= S (length (printed self)).
Proof.
  run_mode. recv_step.
  destruct o as [was_ok|e]; [|simpl; rewrite length_app; simpl; auto with lia].
  destruct (py_eq was_ok (VBool true)).
  - recv_step.
    destruct o as [state|e];
      [|simpl; rewrite length_app; simpl; auto with lia].
    destruct (negb (truthy was_ok)); [simpl; auto with lia|].
    destruct (bytes_dict_get modes state) as [m|] eqn:Hm; simpl.
    + apply modes_names in Hm. split; [|lia]. right; left. by exists m.
    + split; [|lia]. right; right. by eexists.
  - simpl. destruct (negb (truthy was_ok)); simpl; [auto with lia|].
    split; [|lia]. right; right. by eexists.
Qed.

(** The length of a slice between two positions from the left. *)
Lemma slice_length {A} (l : list A) (i j : nat) :
  length (slice l (Z.of_nat i) (Z.of_nat j))
  = Nat.min j (length l) - Nat.min i (length l).
Proof.
  unfold slice. rewrite !clamp_nonneg, length_take, length_drop. lia.
Qed.

(** X6: a line that is too short for a result code, a two-byte unit id and
    the echo of [cmd] never gets past the checks of [recv]: the slices come
    out short, no index is out of range, and [recv] raises a
    [ProjectorCommunicationError]. *)
Theorem recv_short_line (cmd : bytes) (self self' : Projector) (resp : bytes) :
  port_readline self = (Return resp, self') ->
  length (unit_id self) = 2 ->
  length resp < 3 + length cmd ->
  exists m, recv cmd self = (Raise (ProjectorCommunicationError m), self').
Proof.
  intros [Hresp ->]%port_readline_inv Hlen Hshort.
  rewrite recv_run, Hresp.
  destruct resp as [|rc tl]; [by eexists|]. simpl.
  replace (3 + Z.of_nat (length cmd))%Z with (Z.of_nat (3 + length cmd)) by lia.
  pose proof (slice_length (rc :: tl) 1 3
              : length (slice (rc :: tl) 1 3) = _) as L1.
  pose proof (slice_length (rc :: tl) 3 (3 + length cmd)
              : length (slice (rc :: tl) 3 (Z.of_nat (3 + length cmd))) = _)
    as L2.
  cbn [length] in *.
  repeat case_bool_decide; try by eexists.
  all: exfalso; rewrite H0, Hlen in L1; rewrite H1 in L2; lia.
Qed.

Lemma recv_short_line_witness :
  let self := new_projector RS40 default_unit_id [x06; x89; x01; x0a] in
  exists m,
    recv [x50; x57] self
    = (Raise (ProjectorCommunicationError m), after_readline self []).
Proof.
  intros self.
  refine (recv_short_line [x50; x57] self (after_readline self [])
            [x06; x89; x01; x0a] eq_refl eq_refl _).
  simpl. lia.
Defined.

(** The fields of a line that ends in any byte [b]. *)
Lemma line_fields (h b : byte) (uid cmd payload : bytes) :
  length uid = 2 ->
  let line := [h] ++ uid ++ cmd ++ payload ++ [b] in
  slice line 1 3 = uid
  /\ slice line 3 (3 + Z.of_nat (length cmd)) = cmd
  /\ slice line (3 + Z.of_nat (length cmd)) (-1) = payload.
Proof.
  intros Hlen line. subst line. repeat split.
  - pose proof (slice_middle [h] uid (cmd ++ payload ++ [b])) as E.
    rewrite Hlen in E. exact E.
  - pose proof (slice_middle ([h] ++ uid) cmd (payload ++ [b])) as E.
    rewrite length_app, Hlen in E. simpl in E.
    replace (3 + Z.of_nat (length cmd))%Z with (Z.of_nat (3 + length cmd)) by lia.
    exact E.
  - pose proof (slice_to_last ([h] ++ uid ++ cmd) payload b) as E.
    rewrite !length_app, Hlen in E. simpl in E.
    rewrite <- app_assoc in E.
    replace (3 + Z.of_nat (length cmd))%Z
      with (Z.of_nat (1 + (2 + length cmd))) by lia.
    exact E.
Qed.

(** X7: [recv] drops the last byte of the line whether or not it is a line
    feed. When the read times out on a Data line that has no line feed, the
    last byte that arrived is cut off the data: of the payload and one more
    byte [b], only the payload is returned. *)
Theorem recv_unterminated_line (b : byte) (cmd payload : bytes)
    (self : Projector) :
  length (unit_id self) = 2 ->
  x0a ∉ unit_id self -> x0a ∉ cmd -> x0a ∉ payload -> b <> x0a ->
  pending (port self) = [x40] ++ unit_id self ++ cmd ++ payload ++ [b] ->
  recv cmd self = (Return (VBytes payload), after_readline self []).
Proof.
  intros Hlen Hu Hc Hp Hb Hpending.
  destruct (line_fields x40 b _ cmd payload Hlen) as (E1 & E2 & E3).
  assert (split_line (pending (port self))
          = ([x40] ++ unit_id self ++ cmd ++ payload ++ [b], [])) as Hline.
  { rewrite Hpending. apply split_line_unterminated.
    rewrite !not_elem_of_app, !not_elem_of_cons.
    repeat split; try assumption; try apply not_elem_of_nil; congruence. }
  rewrite (recv_data cmd self _ _ [] Hline eq_refl E1 E2).
  simpl in E3. by rewrite E3.
Qed.

Lemma recv_unterminated_line_witness :
  let self :=
    new_projector RS40 default_unit_id
      ([x40] ++ default_unit_id ++ [x50; x57] ++ [] ++ [x31]) in
  recv [x50; x57] self = (Return (VBytes []), after_readline self []).
Proof.
  intros self.
  refine (recv_unterminated_line x31 [x50; x57] [] self eq_refl _ _ _ _ eq_refl);
    try (rewrite list_elem_of_In; simpl; intuition discriminate).
  discriminate.
Defined.

(** X8: [recv] only reads. Whether it returns or raises, it takes exactly
    one line off the front of the pending bytes in one [readline] call, and
    writes nothing, prints nothing and keeps the class and the unit id. *)
Theorem recv_only_reads (cmd : bytes) (self : Projector) :
  cls (recv cmd self).2 = cls self
  /\ unit_id (recv cmd self).2 = unit_id self
  /\ printed (recv cmd self).2 = printed self
  /\ written (port (recv cmd self).2) = written (port self)
  /\ reads (port (recv cmd self).2) = S (reads (port self))
  /\ (split_line (pending (port self))).1 ++ pending (port (recv cmd self).2)
     = pending (port self).
Proof.
  rewrite recv_state. simpl. repeat split. apply split_line_app.
Qed.

(** ** The tables of the classes *)

Lemma dom_foldl_insert `{Countable K} {V} (items : list (K * V))
    (d : gmap K V) :
  dom (foldl (fun d '(k, v) => <[k:=v]> d) d items)
  = dom d ∪ list_to_set (items.*1).
Proof.
  revert d. induction items as [|[k v] items IH]; intros d; simpl.
  - by rewrite (right_id_L ∅ (∪)).
  - rewrite IH, dom_insert_L.
    by rewrite (comm_L (∪) {[k]} (dom d)), (assoc_L (∪)).
Qed.

Lemma dom_dict_of_items `{Countable K} {V} (items : list (K * V)) :
  dom (dict_of_items items) = list_to_set (items.*1).
Proof.
  unfold dict_of_items.
  by rewrite dom_foldl_insert, dom_empty_L, (left_id_L ∅ (∪)).
Qed.

(** X9: in every class, [VALID_SOURCES] is the key set of [INPUT_SOURCES]:
    [source_to_code] returns a code exactly for the sources of
    [VALID_SOURCES] and raises [KeyError] exactly for all other names; it
    never touches the port. *)
Theorem source_to_code_domain (source : string) (self : Projector) :
  (source ∈ VALID_SOURCES (cls self)
   <-> exists code, source_to_code source self = (Return code, self))
  /\ (source ∉ VALID_SOURCES (cls self)
      <-> source_to_code source self = (Raise (KeyError (VStr source)), self)).
Proof.
  unfold VALID_SOURCES. rewrite <- dom_dict_of_items.
  fold (INPUT_SOURCES (cls self)).
  rewrite not_elem_of_dom, elem_of_dom.
  unfold source_to_code. unfold_M.
  destruct (INPUT_SOURCES (cls self) !! source) as [code|].
  - split; split; try done. intros _. by exists code.
  - split; split; try done; by intros [? ?].
Qed.

(** The loop of [valid_sources] when every source has a display name. *)
Lemma valid_sources_loop_run (srcs : list string) (self : Projector) :
  (forall src, src ∈ srcs -> is_Some (InputSource.DISPLAY_NAMES !! src)) ->
  forall result,
  exists d,
    valid_sources_loop srcs result self = (Return d, self)
    /\ forall src,
         d !! src
         = if bool_decide (src ∈ srcs) then InputSource.DISPLAY_NAMES !! src
           else result !! src.
Proof.
  induction srcs as [|s srcs IH]; intros Hnames result.
  - exists result. split; [done|]. intros src.
    by rewrite bool_decide_eq_false_2 by apply not_elem_of_nil.
  - destruct (Hnames s) as [display Hs]; [by left|].
    cbn [valid_sources_loop]. unfold InputSource_name. unfold_M. rewrite Hs.
    destruct (IH (fun src Hsrc => Hnames src (list_elem_of_further _ s _ Hsrc))
                (<[s:=display]> result)) as (d & Hrun & Hd).
    exists d. split; [exact Hrun|]. intros src. rewrite Hd.
    destruct (decide (src ∈ srcs)) as [Hin|Hin].
    + rewrite !bool_decide_eq_true_2; [done| by right | done].
    + rewrite (bool_decide_eq_false_2 _ Hin).
      destruct (decide (src = s)) as [->|Hne].
      * rewrite lookup_insert_eq, bool_decide_eq_true_2; [done | by left].
      * rewrite lookup_insert_ne by done.
        rewrite bool_decide_eq_false_2; [done|].
        rewrite elem_of_cons. tauto.
Qed.

(** X10: when every source of the class has an entry in
    [InputSource.DISPLAY_NAMES], as in [HD250] and [RS40], [valid_sources]
    returns the dict that maps exactly the sources of [VALID_SOURCES] to
    their display names, and raises no [KeyError]. *)
Theorem valid_sources_display_names (self : Projector) :
  (forall src,
     src ∈ VALID_SOURCES (cls self) ->
     is_Some (InputSource.DISPLAY_NAMES !! src)) ->
  exists d,
    valid_sources self = (Return d, self)
    /\ dom d = VALID_SOURCES (cls self)
    /\ forall src,
         src ∈ VALID_SOURCES (cls self) ->
         d !! src = InputSource.DISPLAY_NAMES !! src.
Proof.
  intros Hnames. unfold valid_sources. unfold_M.
  destruct (valid_sources_loop_run (elements (VALID_SOURCES (cls self))) self)
    with (result := (∅ : gmap string string)) as (d & Hrun & Hd).
  { intros src Hsrc%elem_of_elements. by apply Hnames. }
  exists d. split; [exact Hrun|]. split.
  - apply set_eq. intros src. rewrite elem_of_dom, Hd.
    destruct (decide (src ∈ VALID_SOURCES (cls self))) as [Hin|Hin].
    + rewrite bool_decide_eq_true_2 by by apply elem_of_elements.
      split; [done|]. intros _. by apply Hnames.
    + rewrite bool_decide_eq_false_2 by by rewrite elem_of_elements.
      rewrite lookup_empty. split; [by intros [? ?]|done].
  - intros src Hin. rewrite Hd.
    by rewrite bool_decide_eq_true_2 by by apply elem_of_elements.
Qed.

Lemma valid_sources_display_names_witness :
  exists d,
    valid_sources (new_projector RS40 default_unit_id [])
    = (Return d, new_projector RS40 default_unit_id [])
    /\ dom d = VALID_SOURCES RS40
    /\ forall src,
         src ∈ VALID_SOURCES RS40 ->
         d !! src = InputSource.DISPLAY_NAMES !! src.
Proof.
  apply (valid_sources_display_names (new_projector RS40 default_unit_id [])).
  intros src Hin. apply elem_of_list_to_set in Hin. simpl in Hin.
  list_cases Hin; subst src; by eexists.
Defined.

(** ** What the methods raise and return *)

(** [recv] raises nothing but communication errors, and returns nothing but
    [True] or bytes. *)
Lemma recv_raise_inv (cmd : bytes) (self : Projector) (e : exn) :
  (recv cmd self).1 = Raise e -> exists m, e = ProjectorCommunicationError m.
Proof.
  rewrite recv_run. simpl.
  destruct ((split_line (pending (port self))).1) as [|rc tl].
  - intros [= <-]. by eexists.
  - simpl. repeat case_bool_decide; intros [= <-]; by eexists.
Qed.

Lemma recv_return_inv (cmd : bytes) (self : Projector) (v : value) :
  (recv cmd self).1 = Return v -> v = VBool true \/ exists data, v = VBytes data.
Proof.
  rewrite recv_run. simpl.
  destruct ((split_line (pending (port self))).1) as [|rc tl]; [done|].
  simpl. repeat case_bool_decide; intros [= <-]; eauto.
Qed.

Lemma send_raise_inv (header cmd : bytes) (data response_cmd : option bytes)
    (self : Projector) (e : exn) :
  (send header cmd data response_cmd self).1 = Raise e ->
  exists m, e = ProjectorCommunicationError m.
Proof. rewrite send_run. apply recv_raise_inv. Qed.

Lemma send_return_inv (header cmd : bytes) (data response_cmd : option bytes)
    (self : Projector) (v : value) :
  (send header cmd data response_cmd self).1 = Return v ->
  v = VBool true \/ exists data, v = VBytes data.
Proof. rewrite send_run. apply recv_return_inv. Qed.

Lemma send_reference_raise_inv (cmd : bytes) (data : option bytes)
    (self : Projector) (e : exn) :
  (send_reference cmd data self).1 = Raise e ->
  exists m, e = ProjectorCommunicationError m.
Proof.
  unfold send_reference. unfold_M.
  destruct (send [x3f] cmd data None self) as [[was_ok|e1] s1] eqn:Hsend.
  - destruct (py_eq was_ok (VBool true)); [|done].
    destruct (recv cmd s1) as [[r|e2] s2] eqn:Hrecv; [done|].
    intros [= <-]. apply (recv_raise_inv cmd s1). by rewrite Hrecv.
  - intros [= <-].
    apply (send_raise_inv [x3f] cmd data None self). by rewrite Hsend.
Qed.

Lemma mode_raise_inv (self : Projector) (e : exn) :
  (mode self).1 = Raise e ->
  exists state, e = ValueError (unknown_power_state state).
Proof.
  unfold mode, try_except. unfold_M.
  destruct (send_reference [x50; x57] None self) as [[[ok state]|e1] s1];
    [|done].
  simpl. destruct (negb (truthy ok)); [done|].
  destruct (bytes_dict_get modes state); [done|].
  intros [= <-]. by eexists.
Qed.

(** The methods keep the class of the projector. *)
Lemma send_reference_cls (cmd : bytes) (data : option bytes)
    (self : Projector) :
  cls (send_reference cmd data self).2 = cls self.
Proof.
  unfold send_reference. unfold_M. rewrite send_run. recv_step.
  destruct o as [was_ok|e]; [|done].
  destruct (py_eq was_ok (VBool true)); [|done].
  recv_step. by destruct o.
Qed.

(** X11: no [KeyError] escapes the operations. [input] turns the one of
    [code_to_source] into a [ValueError], [set_input] catches the one of
    [source_to_code], in every class; and in [HD250] and [RS40] every
    button of [VALID_BUTTONS] has its code in [Button.CODES], so
    [press_button] raises none either. *)
Theorem no_KeyError_escapes (self : Projector) :
  (forall e, (input self).1 = Raise e -> is_KeyError e = false)
  /\ (forall source e,
        (set_input source self).1 = Raise e -> is_KeyError e = false)
  /\ (cls self = HD250 \/ cls self = RS40 ->
      forall btn e,
        (press_button btn self).1 = Raise e -> is_KeyError e = false).
Proof.
  split; [|split].
  - intros e. unfold input. unfold mbind at 1, M_bind at 1.
    destruct (mode self) as [[m|e1] s1] eqn:Hmode.
    + destruct (negb (py_eq m (VStr "power-on"))); [done|].
      unfold mbind, M_bind.
      destruct (send_reference [x49; x50] None s1) as [[[ok state]|e2] s2]
        eqn:Href.
      * destruct (negb (truthy ok)); [done|].
        unfold try_except, code_to_source. unfold_M.
        destruct (bytes_dict_get (SOURCE_CODES (cls s2)) state); [done|].
        simpl. by intros [= <-].
      * intros [= <-].
        destruct (send_reference_raise_inv [x49; x50] None s1 e2) as [m' ->];
          [by rewrite Href|done].
    + intros [= <-].
      destruct (mode_raise_inv self e1) as [st ->]; [by rewrite Hmode|done].
  - intros source e. unfold set_input. unfold mbind at 1, M_bind at 1.
    destruct (mode self) as [[m|e1] s1] eqn:Hmode.
    + destruct (negb (py_eq m (VStr "power-on"))); [done|].
      unfold try_except, source_to_code. unfold_M.
      destruct (INPUT_SOURCES (cls s1) !! source) as [code|]; simpl; [|done].
      intros He. unfold send_operating in He.
      by destruct (send_raise_inv _ _ _ _ _ _ He) as [m' ->].
    + intros [= <-].
      destruct (mode_raise_inv self e1) as [st ->]; [by rewrite Hmode|done].
  - intros Hcls btn e. unfold press_button, valid_buttons. unfold_M.
    case_bool_decide as Hbtn; [by intros [= <-]|].
    assert (is_Some (Button.CODES !! btn)) as [code Hcode].
    { destruct Hcls as [Hcls|Hcls]; rewrite Hcls in Hbtn;
        apply elem_of_list_to_set in Hbtn; list_cases Hbtn; subst btn;
        by eexists. }
    rewrite Hcode. intros He. unfold send_operating in He.
    by destruct (send_raise_inv _ _ _ _ _ _ He) as [m' ->].
Qed.

(** ** The operations on a projector that answers *)

(** X12: for a button of the class's [VALID_BUTTONS], in [HD250] and
    [RS40], [press_button] writes the one packet 21, unit id, 52 43 37 33,
    the two bytes of the button's code, 0A, and accepts the acknowledgement
    under the shorter command 52 43: it returns [True]. *)
Theorem press_button_acknowledged (btn : string) (rest : bytes)
    (self : Projector) :
  cls self = HD250 \/ cls self = RS40 ->
  btn ∈ VALID_BUTTONS (cls self) ->
  length (unit_id self) = 2 ->
  x0a ∉ unit_id self ->
  pending (port self) = [x06] ++ unit_id self ++ [x52; x43] ++ [x0a] ++ rest ->
  exists code,
    Button.CODES !! btn = Some code
    /\ length code = 2
    /\ press_button btn self
       = (Return (VBool true),
          after_readline
            (after_write self
               ([x21] ++ unit_id self ++ [x52; x43; x37; x33] ++ code ++ [x0a]))
            rest).
Proof.
  intros Hcls Hbtn Hlen Hu Hpending.
  assert (exists code : bytes,
            Button.CODES !! btn = Some code /\ length code = 2)
    as (code & Hcode & Hcl).
  { destruct Hcls as [Hcls|Hcls]; rewrite Hcls in Hbtn;
      apply elem_of_list_to_set in Hbtn; list_cases Hbtn; subst btn;
      by eexists. }
  exists code. repeat (split; [done|]).
  unfold press_button, valid_buttons. unfold_M.
  rewrite bool_decide_eq_false_2 by (intros Hn; by apply Hn).
  rewrite Hcode. unfold send_operating. rewrite send_run, concat_pkt.
  set (s1 := after_write self _). simpl negb. cbv iota.
  rewrite (recv_reply x06 [x52; x43] [] rest s1); auto.
  - rewrite list_elem_of_In. simpl. intuition discriminate.
  - apply not_elem_of_nil.
Qed.

Lemma press_button_acknowledged_witness :
  exists code,
    Button.CODES !! Button.MENU = Some code
    /\ length code = 2
    /\ press_button Button.MENU
         (new_projector RS40 default_unit_id
            ([x06] ++ default_unit_id ++ [x52; x43] ++ [x0a] ++ []))
       = (Return (VBool true),
          after_readline
            (after_write
               (new_projector RS40 default_unit_id
                  ([x06] ++ default_unit_id ++ [x52; x43] ++ [x0a] ++ []))
               ([x21] ++ default_unit_id ++ [x52; x43; x37; x33] ++ code
                ++ [x0a]))
            []).
Proof.
  refine (press_button_acknowledged Button.MENU []
            (new_projector RS40 default_unit_id _)
            (or_intror eq_refl) _ eq_refl _ eq_refl).
  - apply (bool_decide_unpack _). vm_compute. reflexivity.
  - rewrite list_elem_of_In. simpl. intuition discriminate.
Defined.

(** The code tables of the two classes, from source to code and back. *)
Lemma source_code_inverse (c : ProjectorClass) (source : string)
    (code : bytes) :
  c = HD250 \/ c = RS40 ->
  INPUT_SOURCES c !! source = Some code ->
  SOURCE_CODES c !! code = Some source.
Proof.
  intros [-> | ->] Hsrc%elem_of_map_to_list.
  - set (l := map_to_list (INPUT_SOURCES HD250)) in Hsrc.
    vm_compute in l. subst l. list_cases Hsrc; by simplify_eq.
  - set (l := map_to_list (INPUT_SOURCES RS40)) in Hsrc.
    vm_compute in l. subst l. list_cases Hsrc; by simplify_eq.
Qed.

(** X13: [input] on a projector of class [HD250] or [RS40] that is on, when
    the reference request for 49 50 brings back the bytes [code]: if [code]
    is the code [set_input] sends for [source], [input] returns [source];
    if [code] is no key of [SOURCE_CODES], it raises [ValueError] "unknown
    video state". *)
Theorem input_decodes_code (self s1 s2 : Projector) (ok : value)
    (code : bytes) :
  cls self = HD250 \/ cls self = RS40 ->
  mode self = (Return (VStr "power-on"), s1) ->
  send_reference [x49; x50] None s1 = (Return (ok, VBytes code), s2) ->
  (forall source,
     INPUT_SOURCES (cls self) !! source = Some code ->
     input self = (Return (VStr source), s2))
  /\ (SOURCE_CODES (cls self) !! code = None ->
      input self = (Raise (ValueError (unknown_video_state (VBytes code))), s2)).
Proof.
  intros Hcls Hmode Href.
  assert (ok = VBool true) as -> by (by eapply send_reference_second).
  pose proof (mode_state self) as (Hc1 & _). rewrite Hmode in Hc1.
  pose proof (send_reference_cls [x49; x50] None s1) as Hc2.
  rewrite Href in Hc2. simpl in Hc1, Hc2.
  assert (input self
          = (match SOURCE_CODES (cls self) !! code with
             | Some name => Return (VStr name)
             | None => Raise (ValueError (unknown_video_state (VBytes code)))
             end, s2)) as Hinput.
  { unfold input, try_except, code_to_source. unfold_M.
    rewrite Hmode. simpl. rewrite Href. simpl. rewrite Hc2, Hc1.
    by destruct (SOURCE_CODES (cls self) !! code). }
  split.
  - intros source Hsrc.
    by rewrite Hinput, (source_code_inverse _ _ _ Hcls Hsrc).
  - intros Hnone. by rewrite Hinput, Hnone.
Qed.

Lemma input_decodes_code_witness :
  let self :=
    new_projector RS40 default_unit_id
      [x06; x89; x01; x50; x57; x0a; x40; x89; x01; x50; x57; x31; x0a;
       x06; x89; x01; x49; x50; x0a; x40; x89; x01; x49; x50; x36; x0a] in
  (input self).1 = Return (VStr InputSource.HDMI_1).
Proof.
  intros self.
  exact (f_equal fst
    (proj1 (input_decodes_code self (mode self).2
              (send_reference [x49; x50] None (mode self).2).2
              (VBool true) [x36] (or_intror eq_refl) eq_refl eq_refl)
       InputSource.HDMI_1 eq_refl)).
Defined.

(** X14: [set_input] on a projector that is on, for a source of the class's
    [INPUT_SOURCES]: after the power query it writes the one packet 21,
    unit id, 49 50, the code of the source, 0A, and on the
    acknowledgement of 49 50 it returns [True]. *)
Theorem set_input_acknowledged (source : string) (code rest : bytes)
    (self s1 : Projector) :
  mode self = (Return (VStr "power-on"), s1) ->
  INPUT_SOURCES (cls self) !! source = Some code ->
  length (unit_id self) = 2 ->
  x0a ∉ unit_id self ->
  pending (port s1) = [x06] ++ unit_id self ++ [x49; x50] ++ [x0a] ++ rest ->
  set_input source self
  = (Return (VBool true),
     after_readline
       (after_write s1 ([x21] ++ unit_id self ++ [x49; x50] ++ code ++ [x0a]))
       rest).
Proof.
  intros Hmode Hsrc Hlen Hu Hpending.
  pose proof (mode_state self) as (Hc1 & Hu1 & _).
  rewrite Hmode in Hc1, Hu1. simpl in Hc1, Hu1.
  unfold set_input, try_except, source_to_code. unfold_M.
  rewrite Hmode. simpl. rewrite Hc1, Hsrc. simpl.
  unfold send_operating. rewrite send_run, concat_pkt, Hu1.
  simpl default. set (s2 := after_write s1 _).
  assert (unit_id s2 = unit_id self) as Hu2 by exact Hu1.
  rewrite (recv_reply x06 [x49; x50] [] rest s2); [done|auto|..].
  - by rewrite Hu2.
  - by rewrite Hu2.
  - rewrite list_elem_of_In. simpl. intuition discriminate.
  - apply not_elem_of_nil.
  - rewrite Hu2. exact Hpending.
Qed.

Lemma set_input_acknowledged_witness :
  let self :=
    new_projector RS40 default_unit_id
      ([x06; x89; x01; x50; x57; x0a; x40; x89; x01; x50; x57; x31; x0a]
       ++ [x06] ++ default_unit_id ++ [x49; x50] ++ [x0a] ++ []) in
  (set_input InputSource.HDMI_2 self).1 = Return (VBool true).
Proof.
  intros self.
  refine (f_equal fst
    (set_input_acknowledged InputSource.HDMI_2 [x37] [] self (mode self).2
       eq_refl eq_refl eq_refl _ eq_refl)).
  rewrite list_elem_of_In. simpl. intuition discriminate.
Defined.

(** For a source of [INPUT_SOURCES], [set_input] returns a boolean or
    bytes. *)
Lemma set_input_valid_return (source : string) (self : Projector) (v : value) :
  is_Some (INPUT_SOURCES (cls self) !! source) ->
  (set_input source self).1 = Return v ->
  (exists b, v = VBool b) \/ (exists data, v = VBytes data).
Proof.
  intros [code Hsrc].
  pose proof (mode_state self) as (Hc1 & _).
  unfold set_input. unfold mbind at 1, M_bind at 1.
  destruct (mode self) as [[m|e1] s1] eqn:Hmode; [|done].
  simpl in Hc1.
  destruct (py_eq m (VStr "power-on")) eqn:Hm; simpl.
  - unfold try_except, source_to_code. unfold_M. rewrite Hc1, Hsrc. simpl.
    intros Hv. unfold send_operating in Hv.
    destruct (send_return_inv _ _ _ _ _ _ Hv) as [->|[data ->]]; eauto.
  - intros [= <-]. eauto.
Qed.

(** X15: [set_input] hands an exception object back as its value in one
    case only: the projector reported "power-on" and [source] is no key of
    the class's [INPUT_SOURCES]; the object is then the [ValueError]
    "invalid input". All its other results are [False], [True] or bytes. *)
Theorem set_input_exception_value (source : string) (self : Projector)
    (v : value) :
  (set_input source self).1 = Return v ->
  (v = VExc (ValueError (invalid_input (VStr source)))
   /\ (mode self).1 = Return (VStr "power-on")
   /\ INPUT_SOURCES (cls self) !! source = None)
  \/ (exists b, v = VBool b)
  \/ (exists data, v = VBytes data).
Proof.
  pose proof (mode_state self) as (Hc1 & _).
  unfold set_input. unfold mbind at 1, M_bind at 1.
  destruct (mode self) as [[m|e1] s1] eqn:Hmode; [|done].
  simpl in Hc1.
  destruct (py_eq m (VStr "power-on")) eqn:Hm; simpl.
  - unfold try_except, source_to_code. unfold_M. rewrite Hc1.
    destruct (INPUT_SOURCES (cls self) !! source) as [code|]; simpl.
    + intros Hv. unfold send_operating in Hv.
      destruct (send_return_inv _ _ _ _ _ _ Hv) as [->|[data ->]]; eauto.
    + intros [= <-]. left. repeat split.
      destruct m; simpl in Hm; try discriminate.
      by apply bool_decide_eq_true_1 in Hm as ->.
  - intros [= <-]. eauto.
Qed.

Lemma set_input_exception_value_witness :
  let self :=
    new_projector RS40 default_unit_id
      [x06; x89; x01; x50; x57; x0a; x40; x89; x01; x50; x57; x31; x0a] in
  (VExc (ValueError (invalid_input (VStr InputSource.VIDEO)))
   = VExc (ValueError (invalid_input (VStr InputSource.VIDEO)))
   /\ (mode self).1 = Return (VStr "power-on")
   /\ INPUT_SOURCES (cls self) !! InputSource.VIDEO = None)
  \/ (exists b,
        VExc (ValueError (invalid_input (VStr InputSource.VIDEO))) = VBool b)
  \/ (exists data,
        VExc (ValueError (invalid_input (VStr InputSource.VIDEO)))
        = VBytes data).
Proof.
  intros self.
  exact (set_input_exception_value InputSource.VIDEO self _ eq_refl).
Defined.

(** X16: [ready] never answers "not ready" with [False]. On a port where
    nothing arrives it raises the no-response error, and whatever it
    returns is [True] or the data bytes of the reply; a communication error
    is the only thing it raises. *)
Theorem ready_outcomes (self : Projector) :
  (pending (port self) = [] ->
   (ready self).1 = Raise (ProjectorCommunicationError no_response))
  /\ (forall v,
        (ready self).1 = Return v ->
        v = VBool true \/ exists data, v = VBytes data)
  /\ (forall e,
        (ready self).1 = Raise e ->
        exists m, e = ProjectorCommunicationError m)
  /\ written (port (ready self).2)
     = written (port self) ++ [[x21] ++ unit_id self ++ [x00; x00; x0a]].
Proof.
  unfold ready, send_operating. repeat split.
  - intros Hpending. rewrite send_run, recv_run. simpl. by rewrite Hpending.
  - apply send_return_inv.
  - apply send_raise_inv.
  - by rewrite send_run, recv_state.
Qed.

(** X17: for every two-byte unit id, [turn_off] writes the one packet 21,
    unit id, 50 57 30, 0A, and on the acknowledgement 06, unit id, 50 57, 0A
    it returns [True]; the packet differs from the one of [turn_on] in its
    data byte only. *)
Theorem turn_off_acknowledged (rest : bytes) (self : Projector) :
  length (unit_id self) = 2 ->
  x0a ∉ unit_id self ->
  pending (port self) = [x06] ++ unit_id self ++ [x50; x57] ++ [x0a] ++ rest ->
  turn_off self
  = (Return (VBool true),
     after_readline
       (after_write self ([x21] ++ unit_id self ++ [x50; x57; x30; x0a])) rest)
  /\ turn_on self
     = (Return (VBool true),
        after_readline
          (after_write self ([x21] ++ unit_id self ++ [x50; x57; x31; x0a]))
          rest).
Proof.
  intros Hlen Hu Hpending.
  assert (x0a ∉ [x50; x57]) as Hc
    by (rewrite list_elem_of_In; simpl; intuition discriminate).
  unfold turn_off, turn_on, send_operating. rewrite !send_run, !concat_pkt.
  split.
  - set (s1 := after_write self _).
    by rewrite (recv_reply x06 [x50; x57] [] rest s1);
      [|auto|done|done|done|apply not_elem_of_nil|done].
  - set (s1 := after_write self _).
    by rewrite (recv_reply x06 [x50; x57] [] rest s1);
      [|auto|done|done|done|apply not_elem_of_nil|done].
Qed.

Lemma turn_off_acknowledged_witness :
  let self :=
    new_projector RS40 [x8a; x02]
      ([x06] ++ [x8a; x02] ++ [x50; x57] ++ [x0a] ++ []) in
  turn_off self
  = (Return (VBool true),
     after_readline
       (after_write self [x21; x8a; x02; x50; x57; x30; x0a]) []).
Proof.
  intros self.
  refine (proj1 (turn_off_acknowledged [] self eq_refl _ eq_refl)).
  rewrite list_elem_of_In. simpl. intuition discriminate.
Defined.

(** * Properties of the handlers of [server.py] *)

Ltac unfold_H :=
  unfold server.projector_command, server.bind, server.call, server.raise,
    server.ret, server.dumps.

(** A [WebException] made with a message keeps it. *)
Lemma WebException_init_msg (code m : string) :
  m <> "" ->
  server.WebException_init code (Some m)
  = {| server.code := code; server.msg := m |}.
Proof.
  intros Hm. unfold server.WebException_init. simpl.
  by rewrite bool_decide_eq_false_2.
Qed.

(** The loop of [valid_sources] leaves the projector alone, and the keys
    of the dict it returns were in the dict before or are visited. *)
Lemma valid_sources_loop_keys (srcs : list string) (self : Projector) :
  forall result,
    (valid_sources_loop srcs result self).2 = self
    /\ forall d src,
         (valid_sources_loop srcs result self).1 = Return d ->
         is_Some (d !! src) -> src ∈ srcs \/ is_Some (result !! src).
Proof.
  induction srcs as [|s srcs IH]; intros result.
  - split; [done|]. intros d src [= <-]. auto.
  - cbn [valid_sources_loop]. unfold InputSource_name. unfold_M.
    destruct (InputSource.DISPLAY_NAMES !! s) as [display|]; [|done].
    destruct (IH (<[s:=display]> result)) as [Hst Hkeys].
    split; [exact Hst|]. intros d src Hd Hsrc.
    destruct (Hkeys d src Hd Hsrc) as [Hin|Hin].
    + left. by right.
    + destruct (decide (src = s)) as [->|Hne]; [left; by left|].
      rewrite lookup_insert_ne in Hin by done. by right.
Qed.

(** The sources [valid_sources] lists are keys of [INPUT_SOURCES]. *)
Lemma valid_sources_keys (self : Projector) (d : gmap string string)
    (source : string) :
  (valid_sources self).1 = Return d ->
  is_Some (d !! source) ->
  is_Some (INPUT_SOURCES (cls self) !! source).
Proof.
  unfold valid_sources. unfold_M. intros Hd Hsrc.
  destruct (valid_sources_loop_keys (elements (VALID_SOURCES (cls self)))
              self ∅) as [_ Hkeys].
  destruct (Hkeys d source Hd Hsrc) as [Hin|Hin].
  - apply elem_of_elements in Hin. unfold VALID_SOURCES in Hin.
    rewrite <- dom_dict_of_items in Hin. by apply elem_of_dom in Hin.
  - rewrite lookup_empty in Hin. by destruct Hin.
Qed.

Lemma valid_sources_state (self : Projector) : (valid_sources self).2 = self.
Proof.
  unfold valid_sources. unfold_M.
  apply (valid_sources_loop_keys (elements (VALID_SOURCES (cls self))) self ∅).
Qed.

(** X18: [press] answers a name that is no key of [Button.CODES], once it
    is in lower case, with the [WebException] "404 Not Found" and the
    message "No such button" with the name; the projector is not touched. *)
Theorem server_press_unknown_button `{server.Env} (button : string)
    (projector : Projector) :
  Button.CODES !! server.str_lower button = None ->
  server.press button projector
  = (server.Raises
       (server.WebExn
          {| server.code := "404 Not Found";
             server.msg := "No such button " +:+ server.str_lower button |}),
     projector).
Proof.
  intros Hbtn. unfold server.press. unfold_H. rewrite Hbtn.
  by rewrite WebException_init_msg.
Qed.

Lemma server_press_unknown_button_witness :
  (@server.press server.example_env "power"
     (new_projector RS40 default_unit_id [])).1
  = server.Raises
      (server.WebExn
         {| server.code := "404 Not Found";
            server.msg := "No such button power" |}).
Proof.
  exact (f_equal fst
    (@server_press_unknown_button server.example_env "power"
       (new_projector RS40 default_unit_id []) eq_refl)).
Defined.

(** X19: the 404 check of [press] looks in [Button.CODES], which holds the
    buttons of every class. A button that has a code but is not in the
    [VALID_BUTTONS] of the projector's class gets past it, and the
    [ValueError] of [press_button] leaves [press] as it is: it is not made a
    [WebException], and nothing is written to the port. *)
Theorem server_press_unsupported_button `{server.Env} (button : string)
    (projector : Projector) :
  is_Some (Button.CODES !! server.str_lower button) ->
  server.str_lower button ∉ VALID_BUTTONS (cls projector) ->
  server.press button projector
  = (server.Raises
       (server.ProjectorExn
          (ValueError (unsupported_button (VStr (server.str_lower button))))),
     projector).
Proof.
  intros [code Hcode] Hbtn. unfold server.press. unfold_H. rewrite Hcode.
  unfold press_button, valid_buttons. unfold_M.
  by rewrite bool_decide_eq_true_2.
Qed.

Lemma server_press_unsupported_button_witness :
  @server.press server.example_env Button.BRIGHTNESS
    (new_projector RS40 default_unit_id [])
  = (server.Raises
       (server.ProjectorExn
          (ValueError (unsupported_button (VStr Button.BRIGHTNESS)))),
     new_projector RS40 default_unit_id []).
Proof.
  refine (@server_press_unsupported_button server.example_env
            Button.BRIGHTNESS (new_projector RS40 default_unit_id []) _ _).
  - by eexists.
  - apply (bool_decide_unpack _). vm_compute. reflexivity.
Defined.

(** X20: [set_input] of the server, for a class whose sources all have a
    display name, answers a name outside [VALID_SOURCES] with the
    [WebException] "404 Not Found" and the message "Invalid source" with
    the name, before anything is sent: the projector is not touched, and
    [Projector.set_input] is not called with such a name. *)
Theorem server_set_input_invalid_source `{server.Env} (source : string)
    (projector : Projector) :
  (forall src,
     src ∈ VALID_SOURCES (cls projector) ->
     is_Some (InputSource.DISPLAY_NAMES !! src)) ->
  source ∉ VALID_SOURCES (cls projector) ->
  server.set_input source projector
  = (server.Raises
       (server.WebExn
          {| server.code := "404 Not Found";
             server.msg := "Invalid source " +:+ source |}),
     projector).
Proof.
  intros Hnames Hsrc. unfold server.set_input. unfold_H.
  unfold valid_sources. unfold_M.
  destruct (valid_sources_loop_run (elements (VALID_SOURCES (cls projector)))
              projector)
    with (result := (∅ : gmap string string)) as (d & Hrun & Hd).
  { intros src Hin%elem_of_elements. by apply Hnames. }
  rewrite Hrun, Hd.
  rewrite bool_decide_eq_false_2 by by rewrite elem_of_elements.
  rewrite lookup_empty. by rewrite WebException_init_msg.
Qed.

Lemma server_set_input_invalid_source_witness :
  @server.set_input server.example_env InputSource.VIDEO
    (new_projector RS40 default_unit_id [])
  = (server.Raises
       (server.WebExn
          {| server.code := "404 Not Found";
             server.msg := "Invalid source video" |}),
     new_projector RS40 default_unit_id []).
Proof.
  refine (@server_set_input_invalid_source server.example_env
            InputSource.VIDEO (new_projector RS40 default_unit_id []) _ _).
  - intros src Hin. apply elem_of_list_to_set in Hin. simpl in Hin.
    list_cases Hin; subst src; by eexists.
  - apply (bool_decide_unpack _). vm_compute. reflexivity.
Defined.

(** X21: [set_input] of the server never hands an exception object to
    [json.dumps]. It calls [Projector.set_input] for keys of [valid_sources]
    only, which are keys of [INPUT_SOURCES]; when [json.dumps] raises its
    [TypeError] there, the value of "success" is a boolean or the data bytes
    of a reply, in every class and with every [json.dumps]. *)
Theorem server_set_input_dumps `{server.Env} (source : string)
    (projector : Projector) (o : server.pyobj) :
  (server.set_input source projector).1 = server.Raises (server.TypeError o) ->
  exists v,
    o = [("success", v)]
    /\ ((exists b, v = VBool b) \/ (exists data, v = VBytes data)).
Proof.
  unfold server.set_input. unfold_H.
  pose proof (valid_sources_state projector) as Hst.
  destruct (valid_sources projector) as [[sources|e] p1] eqn:Hvs;
    [|by destruct e as [[]| |]].
  simpl in Hst. subst p1.
  destruct (sources !! source) as [display|] eqn:Hsrc; [|done].
  assert (is_Some (INPUT_SOURCES (cls projector) !! source)) as Hin.
  { apply (valid_sources_keys projector sources); [by rewrite Hvs|by eexists]. }
  destruct (set_input source projector) as [[v|e] p2] eqn:Hset;
    [|by destruct e as [[]| |]].
  destruct (server.json_dumps [("success", v)]); [done|].
  intros [= <-]. exists v. split; [done|].
  apply (set_input_valid_return source projector v Hin). by rewrite Hset.
Qed.

Lemma server_set_input_dumps_witness :
  exists v,
    [("success", VBytes [x36])] = [("success", v)]
    /\ ((exists b, v = VBool b) \/ (exists data, v = VBytes data)).
Proof.
  exact (@server_set_input_dumps server.example_env InputSource.HDMI_1
           (new_projector RS40 default_unit_id
              [x06; x89; x01; x50; x57; x0a; x40; x89; x01; x50; x57; x31; x0a;
               x40; x89; x01; x49; x50; x36; x0a])
           [("success", VBytes [x36])] eq_refl).
Defined.

(** X22: [on] and [off] answer every exception of [turn_on] and [turn_off]
    with the [WebException] "503 Service Unavailable" that names the
    projector's URL, and hand every value they return to [json.dumps] under
    the key "success". *)
Theorem server_on_off `{server.Env} (projector : Projector) :
  let unavailable :=
    server.Raises
      (server.WebExn
         {| server.code := "503 Service Unavailable";
            server.msg :=
              "Could not communicate with projector " +:+ server.dquote
              +:+ server.url +:+ server.dquote
              +:+ ". Is it connected and powered on?" |}) in
  let dumped (v : value) :=
    match server.json_dumps [("success", v)] with
    | Some text => server.Returns text
    | None => server.Raises (server.TypeError [("success", v)])
    end in
  (server.on projector).1
  = match (turn_on projector).1 with
    | Return v => dumped v
    | Raise _ => unavailable
    end
  /\ (server.off projector).1
     = match (turn_off projector).1 with
       | Return v => dumped v
       | Raise _ => unavailable
       end.
Proof.
  intros unavailable dumped. subst unavailable dumped.
  unfold server.on, server.off. unfold_H. split.
  - destruct (turn_on projector) as [[v|e] p1] eqn:Hon; simpl.
    + by destruct (server.json_dumps [("success", v)]).
    + destruct (send_raise_inv [x21] [x50; x57] (Some [x31]) None projector e)
        as [m ->]; [exact (f_equal fst Hon)|].
      done.
  - destruct (turn_off projector) as [[v|e] p1] eqn:Hoff; simpl.
    + by destruct (server.json_dumps [("success", v)]).
    + destruct (send_raise_inv [x21] [x50; x57] (Some [x30]) None projector e)
        as [m ->]; [exact (f_equal fst Hoff)|].
      done.
Qed.

(** X23: [projector_status] does not report a projector that is silent. With
    nothing arriving on the port, both power queries (the one of [mode] and
    the one inside [input]) time out, [mode] prints the error each time, and
    the handler hands mode [None], input [None] and the model name to
    [json.dumps]: no "503 Service Unavailable" is raised. *)
Theorem server_status_silent `{server.Env} (projector : Projector) :
  pending (port projector) = [] ->
  let query := [x3f] ++ unit_id projector ++ [x50; x57; x0a] in
  (server.projector_status projector).1
  = match
      server.json_dumps
        [("mode", VNone); ("input", VNone);
         ("model", VStr (model (cls projector)))]
    with
    | Some text => server.Returns text
    | None =>
        server.Raises
          (server.TypeError
             [("mode", VNone); ("input", VNone);
              ("model", VStr (model (cls projector)))])
    end
  /\ written (port (server.projector_status projector).2)
     = written (port projector) ++ [query; query]
  /\ printed (server.projector_status projector).2
     = printed projector
       ++ [ProjectorCommunicationError no_response;
           ProjectorCommunicationError no_response].
Proof.
  intros Hpending query. subst query.
  assert (forall p,
            pending (port p) = [] ->
            mode p
            = (Return VNone,
               {| cls := cls p; unit_id := unit_id p;
                  port := {| written :=
                               written (port p)
                               ++ [[x3f] ++ unit_id p ++ [x50; x57; x0a]];
                             pending := [];
                             reads := S (reads (port p)) |};
                  printed :=
                    printed p ++ [ProjectorCommunicationError no_response] |}))
    as Hmode.
  { intros p Hp. run_mode. rewrite recv_run. simpl. by rewrite Hp. }
  unfold server.projector_status. unfold_H.
  rewrite (Hmode projector Hpending).
  unfold input. unfold mbind at 1, M_bind at 1.
  rewrite Hmode by done. simpl.
  destruct (server.json_dumps _); simpl; rewrite <- !app_assoc; done.
Qed.

Lemma server_status_silent_witness :
  (@server.projector_status server.example_env
     (new_projector RS40 default_unit_id [])).1
  = server.Returns
      ("{" +:+ server.dquote +:+ "mode" +:+ server.dquote +:+ ": null, "
       +:+ server.dquote +:+ "input" +:+ server.dquote +:+ ": null, "
       +:+ server.dquote +:+ "model" +:+ server.dquote +:+ ": "
       +:+ server.dquote +:+ "DLA-RS40" +:+ server.dquote +:+ "}").
Proof.
  exact (proj1 (@server_status_silent server.example_env
                  (new_projector RS40 default_unit_id []) eq_refl)).
Defined.
